(** * Fraudulent-Transactions-Classifier: the CSV data fetcher

    A shallow embedding of [src/fraudclf/data_fetcher.py] and of the part of
    pandas it calls, followed by the properties of [DataFetcher] that the
    specification states.

    Reading guide:
    - Python values, f-strings, exceptions and the logger are plain data;
    - a Python method is a function of the [World] (files on disk, the log
      written so far, the reads attempted so far) returning an [Outcome]
      (a value or a raised exception) and the new [World];
    - [pd] holds the pandas operations the class uses: [read_csv], [drop],
      [df[label]], [df[[labels]]], [label in df.columns]. *)

From Stdlib Require Import String DecimalString DecimalNat Bool Arith PeanoNat Lia List.
Import ListNotations.
Local Open Scope string_scope.
Local Open Scope list_scope.

(** ** Python values *)

(** A column label. [read_csv] labels columns with the header's strings, or
    with the integers [0, 1, ...] when the file has no header. In Python a
    [str] is never equal to an [int]. *)
Inductive Label : Type :=
| LStr (s : string)
| LInt (n : nat).

Definition Label_eqb (a b : Label) : bool :=
  match a, b with
  | LStr s, LStr t => String.eqb s t
  | LInt n, LInt m => Nat.eqb n m
  | _, _ => false
  end.

(** A scalar of a table: [NaN] is the missing value, which [read_csv] gives
    for a field a record does not have, for an empty field and for the other
    missing-value texts; [Field s] is the scalar [read_csv] parses from the
    text [s] (a number, a boolean or a string, by the dtype it infers for the
    column). The parse is not modelled, the text stands for the scalar: no
    operation of [DataFetcher] looks inside a scalar. *)
Inductive Cell : Type :=
| NaN
| Field (s : string).

(** [Optional[str]] and its truth value: [None] and [""] are falsy. *)
Definition truthy (c : option string) : bool :=
  match c with
  | Some s => negb (String.eqb s "")
  | None => false
  end.

(** The values the source interpolates in f-strings. *)
Inductive pyval : Type :=
| VPath (p : string)
| VNat (n : nat)
| VLabel (l : Label)
| VLabels (ls : list Label)
| VNames (cs : list (option string))
| VShape (dims : list nat).

(** An f-string, kept as its literal parts and its interpolated values. *)
Inductive piece (V : Type) : Type :=
| Lit (s : string)
| Interp (v : V).
Arguments Lit {V} s.
Arguments Interp {V} v.

Definition fstring : Type := list (piece pyval).

(** ** Exceptions *)

Inductive exn : Type :=
| ValueError (msg : fstring)
| KeyError (msg : fstring)
| FileNotFoundError (path : string)
| PermissionError (path : string)
| IsADirectoryError (path : string)
| UnicodeDecodeError
| EmptyDataError
| ParserError.

Inductive Outcome (A : Type) : Type :=
| Return (a : A)
| Raise (e : exn).
Arguments Return {A} a.
Arguments Raise {A} e.

(** ** The world: files, log, reads *)

(** What is at a path when [read_csv] opens it: nothing, something the read or
    the tokenizer fails on, or a delimited text whose records are [rows]. *)
Inductive FileState : Type :=
| Absent
| Fails (e : exn)
| Records (rows : list (list string)).

Inductive Level : Type := INFO | ERROR.

Inductive logval : Type :=
| LVal (v : pyval)
| LExc (e : exn).

Record LogRecord : Type := mkLog {
  level : Level;
  message : list (piece logval);
  exc_info : option exn
}.

Inductive IOEvent : Type :=
| ReadFile (path : string).

Record World : Type := mkWorld {
  fs : string -> FileState;
  log : list LogRecord;
  io : list IOEvent
}.

(** ** Statements: state passing with exceptions *)

Definition Py (A : Type) : Type := World -> Outcome A * World.

Definition ret {A} (a : A) : Py A := fun w => (Return a, w).

Definition raise {A} (e : exn) : Py A := fun w => (Raise e, w).

Definition bind {A B} (c : Py A) (k : A -> Py B) : Py B :=
  fun w =>
    match c w with
    | (Return a, w') => k a w'
    | (Raise e, w') => (Raise e, w')
    end.

(** [try: body except ... as exc: handler exc]; every exception modelled is an
    [Exception], so the handler sees all of them. *)
Definition try_except {A} (body : Py A) (handler : exn -> Py A) : Py A :=
  fun w =>
    match body w with
    | (Return a, w') => (Return a, w')
    | (Raise e, w') => handler e w'
    end.

(** A pandas call that touches nothing of the world. *)
Definition lift {A} (o : Outcome A) : Py A := fun w => (o, w).

Declare Scope py_scope.
Delimit Scope py_scope with py.
Notation "x <- c ;; k" := (bind c (fun x => k))
  (at level 100, c at next level, right associativity) : py_scope.
Notation "c ;; k" := (bind c (fun _ => k))
  (at level 100, right associativity) : py_scope.
Local Open Scope py_scope.

(** ** The logger of [fraudclf.utils.common] *)

Module logger.

Definition emit (r : LogRecord) : Py unit :=
  fun w => (Return tt, mkWorld (fs w) (log w ++ [r]) (io w)).

Definition info (m : list (piece logval)) : Py unit := emit (mkLog INFO m None).

Definition error (m : list (piece logval)) : Py unit := emit (mkLog ERROR m None).

(** [logger.exception] logs at error level with the exception being handled. *)
Definition exception (m : list (piece logval)) (exc : exn) : Py unit :=
  emit (mkLog ERROR m (Some exc)).

End logger.

Definition L (s : string) : piece logval := Lit s.
Definition V (v : pyval) : piece logval := Interp (LVal v).

(** ** pandas *)

Module pd.

Record Series : Type := mkSeries {
  name : Label;
  values : list Cell
}.

(** A frame: the length of its row index and its columns in order, each a label
    and the scalars of the column. The row count is the index's, not the first
    column's: a frame keeps its rows when all its columns are dropped. *)
Record DataFrame : Type := mkFrame {
  nrows : nat;
  data : list (Label * list Cell)
}.

(** [df.columns] *)
Definition columns (df : DataFrame) : list Label := map fst (data df).

(** [label in index] *)
Definition contains (ls : list Label) (l : Label) : bool :=
  existsb (Label_eqb l) ls.

(** [len(df)] and [df.shape] *)
Definition len (df : DataFrame) : nat := nrows df.
Definition shape (df : DataFrame) : list nat := [nrows df; length (data df)].

(** Every column has one scalar per row. *)
Definition wf (df : DataFrame) : Prop :=
  Forall (fun c => length (snd c) = nrows df) (data df).

(** The columns labelled [l], in table order. *)
Definition labelled (l : Label) (cs : list (Label * list Cell)) : list (Label * list Cell) :=
  filter (fun c => Label_eqb l (fst c)) cs.

(** The texts [read_csv] reads as the missing value (its default
    [na_values], [keep_default_na=True]). *)
Definition na_values : list string :=
  [""; "#N/A"; "#N/A N/A"; "#NA"; "-1.#IND"; "-1.#QNAN"; "-NaN"; "-nan";
   "1.#IND"; "1.#QNAN"; "<NA>"; "N/A"; "NA"; "NULL"; "NaN"; "None"; "n/a";
   "nan"; "null"].

(** Field [j] of a record: [NaN] where the record is too short or the text
    is one of [na_values]. *)
Definition field (j : nat) (rec : list string) : Cell :=
  match nth_error rec j with
  | Some s => if existsb (String.eqb s) na_values then NaN else Field s
  | None => NaN
  end.

(** The frame of the records [recs] under the labels [names]: one row per
    record, and column [j] holds field [j] of every record. *)
Definition frame_of (names : list Label) (recs : list (list string)) : DataFrame :=
  mkFrame (length recs)
          (map (fun jn => (snd jn, map (field (fst jn)) recs))
               (combine (seq 0 (length names)) names)).

(** The same when the first [lead] fields of every record are the row index
    and not columns: column [j] holds field [lead + j]. *)
Definition frame_at (lead : nat) (names : list Label) (recs : list (list string))
    : DataFrame :=
  mkFrame (length recs)
          (map (fun jn => (snd jn, map (field (lead + fst jn)) recs))
               (combine (seq 0 (length names)) names)).

(** Whether a record has more fields than the table has columns. *)
Definition too_long (width : nat) (rec : list string) : bool :=
  Nat.ltb width (length rec).

(** [str(j)] for a position [j]. *)
Definition decimal (j : nat) : string :=
  NilZero.string_of_uint (Nat.to_uint j).

(** *** Header names

    [read_csv] names a blank header field ["Unnamed: i"] and renames a name
    it has already given ([a, a, b] becomes [a, a.1, b]): the loop below is
    the one of its parser in pandas 2 ([this_header], [counts],
    [unnamed_col_indices], [col_loop_order] are its variables). *)

(** The name of header field [i] before renaming. *)
Definition header_text (i : nat) (name : string) : string :=
  if String.eqb name "" then ("Unnamed: " ++ decimal i)%string else name.

(** [this_header] as first built. *)
Definition this_header0 (hdr : list string) : list string :=
  map (fun js => header_text (fst js) (snd js)) (combine (seq 0 (length hdr)) hdr).

(** The positions of the blank fields. *)
Definition unnamed_col_indices (hdr : list string) : list nat :=
  filter (fun i => match nth_error hdr i with
                   | Some name => String.eqb name ""
                   | None => false
                   end)
         (seq 0 (length hdr)).

(** [[i for i in range(len(this_header)) if i not in unnamed_col_indices]
    + unnamed_col_indices]: the given names are dealt with first. *)
Definition col_loop_order (hdr : list string) : list nat :=
  filter (fun i => negb (existsb (Nat.eqb i) (unnamed_col_indices hdr)))
         (seq 0 (length hdr))
  ++ unnamed_col_indices hdr.

(** [counts]: a dict from names to numbers, [counts.get(col, 0)] and
    [counts[col] = n]. *)
Definition Counts : Type := list (string * nat).

Definition counts_get (counts : Counts) (col : string) : nat :=
  match find (fun p => String.eqb col (fst p)) counts with
  | Some p => snd p
  | None => 0
  end.

Definition counts_set (counts : Counts) (col : string) (n : nat) : Counts :=
  (col, n) :: counts.

(** [col in this_header] *)
Definition in_names (col : string) (names : list string) : bool :=
  existsb (String.eqb col) names.

(** [l[i] = x] *)
Fixpoint set_nth {A : Type} (i : nat) (x : A) (l : list A) : list A :=
  match l, i with
  | [], _ => []
  | _ :: t, 0 => x :: t
  | a :: t, S i' => a :: set_nth i' x t
  end.

(** [f"{old_col}.{cur_count}"] *)
Definition candidate (old_col : string) (k : nat) : string :=
  (old_col ++ "." ++ decimal k)%string.

(** The loop
    [while cur_count > 0:
       counts[old_col] = cur_count + 1
       col = f"{old_col}.{cur_count}"
       if col in this_header: cur_count += 1
       else: cur_count = counts.get(col, 0)]
    on the state [(col, counts, cur_count)], run for at most [fuel] rounds
    (one more than the length of the header is enough, see
    [mangle_loop_spec]). *)
Fixpoint mangle_loop (fuel : nat) (this_header : list string) (old_col : string)
    (st : string * Counts * nat) : string * Counts * nat :=
  match fuel with
  | 0 => st
  | S fuel' =>
      let '(col, counts, cur_count) := st in
      if (cur_count =? 0)%nat then st
      else
        let counts := counts_set counts old_col (cur_count + 1) in
        let col := candidate old_col cur_count in
        if in_names col this_header
        then mangle_loop fuel' this_header old_col (col, counts, cur_count + 1)
        else mangle_loop fuel' this_header old_col (col, counts, counts_get counts col)
  end.

(** One round of [for i in col_loop_order]: the name at [i] is renamed if it
    has been given, written back, and counted. *)
Definition mangle_at (st : list string * Counts) (i : nat) : list string * Counts :=
  let (this_header, counts) := st in
  match nth_error this_header i with
  | None => st
  | Some col =>
      let old_col := col in
      let cur_count := counts_get counts col in
      let '(col, counts, cur_count) :=
        mangle_loop (S (length this_header)) this_header old_col (col, counts, cur_count) in
      (set_nth i col this_header, counts_set counts col (cur_count + 1))
  end.

(** The names of the columns, from the header record. *)
Definition dedup_header (hdr : list string) : list string :=
  fst (fold_left mangle_at (col_loop_order hdr) (this_header0 hdr, [])).

Definition header_names (hdr : list string) : list Label :=
  map LStr (dedup_header hdr).

(** How many fields a row has once the first row after the header is read:
    the header's count, or that row's when it has more (the fields that the
    header does not name are then the row index). *)
Definition width_of (hdr : list string) (recs : list (list string)) : nat :=
  match recs with
  | [] => length hdr
  | r :: _ => Nat.max (length hdr) (length r)
  end.

(** The parse of [read_csv(path, header=header)] over the records of the file.
    [header = Some n]: the records before record [n] are skipped, record [n]
    gives the names and the records after it the rows; when the first row has
    more fields than the header, its leading fields, and those of every row,
    are the row index. [header = None]: the labels are the positions
    [0 .. width-1] of the first record and every record is a row. A file with
    no record to take the columns from raises EmptyDataError; a row with more
    fields than the first row (and than the header) raises ParserError; a
    row with fewer is filled with missing values. *)
Definition parse (rows : list (list string)) (header : option nat) : Outcome DataFrame :=
  match header with
  | Some n =>
      match skipn n rows with
      | [] => Raise EmptyDataError
      | hdr :: recs =>
          if (length hdr =? 0)%nat then Raise EmptyDataError
          else if existsb (too_long (width_of hdr recs)) recs then Raise ParserError
          else Return (frame_at (width_of hdr recs - length hdr) (header_names hdr) recs)
      end
  | None =>
      match rows with
      | [] => Raise EmptyDataError
      | first :: _ =>
          if (length first =? 0)%nat then Raise EmptyDataError
          else if existsb (too_long (length first)) rows then Raise ParserError
          else Return (frame_of (map LInt (seq 0 (length first))) rows)
      end
  end.

(** What opening and parsing the file at [path] gives, by what is there. *)
Definition open_and_parse (st : FileState) (path : string) (header : option nat)
    : Outcome DataFrame :=
  match st with
  | Absent => Raise (FileNotFoundError path)
  | Fails e => Raise e
  | Records rows => parse rows header
  end.

(** [pd.read_csv(path, header=header)]: one read of the file at [path]. *)
Definition read_csv (path : string) (header : option nat) : Py DataFrame :=
  fun w =>
    (open_and_parse (fs w path) path header,
     mkWorld (fs w) (log w) (io w ++ [ReadFile path])).

(** The labels of [labels] that the frame does not have. *)
Definition absent (df : DataFrame) (labels : list Label) : list Label :=
  filter (fun l => negb (contains (columns df) l)) labels.

(** [df.drop(columns=labels)]: every column with one of the labels goes; a
    label the frame does not have raises KeyError. *)
Definition drop (df : DataFrame) (labels : list Label) : Outcome DataFrame :=
  match absent df labels with
  | [] => Return (mkFrame (nrows df)
                          (filter (fun c => negb (contains labels (fst c))) (data df)))
  | ls => Raise (KeyError [Interp (VLabels ls); Lit " not found in axis"])
  end.

(** [df[labels]] with a list of labels: the columns with each label, in the
    order of the list; a label the frame does not have raises KeyError (worded
    otherwise by pandas when none of the labels is found). *)
Definition getitem_list (df : DataFrame) (labels : list Label) : Outcome DataFrame :=
  match absent df labels with
  | [] => Return (mkFrame (nrows df) (flat_map (fun l => labelled l (data df)) labels))
  | ls => Raise (KeyError [Interp (VLabels ls); Lit " not in index"])
  end.

(** What [df[label]] returns: a Series when one column has the label, a
    DataFrame when several have it. It is also the type of the target,
    [pd.Series | pd.DataFrame]. *)
Inductive Selection : Type :=
| TSeries (s : Series)
| TFrame (d : DataFrame).

(** [df[label]]; a label the frame does not have raises KeyError. *)
Definition getitem (df : DataFrame) (l : Label) : Outcome Selection :=
  match labelled l (data df) with
  | [] => Raise (KeyError [Interp (VLabel l)])
  | [c] => Return (TSeries (mkSeries l (snd c)))
  | cs => Return (TFrame (mkFrame (nrows df) cs))
  end.

(** [df.iat[i, j]]: the scalar at row [i] of the [j]-th column. *)
Definition iat (df : DataFrame) (i j : nat) : option Cell :=
  match nth_error (data df) j with
  | Some c => nth_error (snd c) i
  | None => None
  end.

(** [df.iloc[i]]: row [i], as the scalar under each label in column order. *)
Definition iloc (df : DataFrame) (i : nat) : list (Label * option Cell) :=
  map (fun c => (fst c, nth_error (snd c) i)) (data df).

(** The scalars of the first column labelled [l]. *)
Definition column (df : DataFrame) (l : Label) : option (list Cell) :=
  option_map snd (find (fun c => Label_eqb l (fst c)) (data df)).

(** [len(target)] and row [i] of a target of either shape. *)
Definition len_of (t : Selection) : nat :=
  match t with
  | TSeries s => length (values s)
  | TFrame d => nrows d
  end.

Definition iloc_of (t : Selection) (i : nat) : list (Label * option Cell) :=
  match t with
  | TSeries s => [(name s, nth_error (values s) i)]
  | TFrame d => iloc d i
  end.

(** [.copy()]: values here are immutable, a copy is the value. *)
Definition copy {A} (x : A) : A := x.

(** [getattr(target, 'shape', None)] *)
Definition shape_of (t : Selection) : list nat :=
  match t with
  | TSeries s => [length (values s)]
  | TFrame d => shape d
  end.

End pd.

(** ** class DataFetcher *)

Record DataFetcher : Type := mkDataFetcher {
  csv_path : string;
  has_header : bool;
  target_name : option string;
  id_column : option string
}.

(** [__init__]: stores its arguments; no I/O, no validation. [csv_path] is
    the path as [Path(csv_path)] holds it; the defaults of the source are
    [None], [None] and [True]. *)
Definition __init__ (csv_path : string) (target_column_name id_column_name : option string)
    (header : bool) : DataFetcher :=
  mkDataFetcher csv_path header target_column_name id_column_name.

(** [header = 0 if self.has_header else None] *)
Definition header_arg (self : DataFetcher) : option nat :=
  if has_header self then Some 0 else None.

(** [_read_csv_file] (lines 39-52) *)
Definition _read_csv_file (self : DataFetcher) : Py pd.DataFrame :=
  let header := header_arg self in
  try_except
    (logger.info [L "Reading CSV file from "; V (VPath (csv_path self))] ;;
     df <- pd.read_csv (csv_path self) header ;;
     logger.info [L "Loaded DataFrame with "; V (VNat (pd.len df)); L " rows and ";
                  V (VNat (length (pd.columns df))); L " columns"] ;;
     ret df)
    (fun exc =>
       match exc with
       | FileNotFoundError _ =>
           logger.error [L "CSV file not found: "; V (VPath (csv_path self))] ;;
           raise exc
       | _ =>
           logger.exception [L "Unexpected error reading CSV file: "; Interp (LExc exc)] exc ;;
           raise exc
       end).

(** The label a configured name denotes, for the places where the source has
    already tested the name. *)
Definition label_of (c : option string) : Label :=
  match c with
  | Some s => LStr s
  | None => LStr ""
  end.

(** [c and c not in df.columns] *)
Definition is_missing (df : pd.DataFrame) (c : option string) : bool :=
  match c with
  | Some s => negb (String.eqb s "") && negb (pd.contains (pd.columns df) (LStr s))
  | None => false
  end.

(** [[c for c in [self.target_name, self.id_column] if c and c not in df.columns]] *)
Definition missing_columns (self : DataFetcher) (df : pd.DataFrame) : list (option string) :=
  filter (is_missing df) [target_name self; id_column self].

(** [drop_cols] (lines 87-89) *)
Definition drop_cols (self : DataFetcher) (df : pd.DataFrame) (tn : string) : list Label :=
  [LStr tn] ++
  match id_column self with
  | Some i =>
      if truthy (Some i) && pd.contains (pd.columns df) (LStr i) then [LStr i] else []
  | None => []
  end.

Definition missing_column_error (missing : list (option string)) (df : pd.DataFrame) : exn :=
  KeyError [Lit "Columns not found in CSV: "; Interp (VNames missing);
            Lit ". Available: "; Interp (VLabels (pd.columns df))].

Definition target_not_specified : exn :=
  ValueError [Lit "target_column_name must be provided to split features/target."].

(** [get_features_and_target] (lines 54-100) *)
Definition get_features_and_target (self : DataFetcher) (include_id_in_target : bool)
    : Py (pd.DataFrame * pd.Selection) :=
  match target_name self with
  | None =>
      logger.error [L "Target column not specified in DataFetcher initialization."] ;;
      raise target_not_specified
  | Some tn =>
      df <- _read_csv_file self ;;
      let missing := missing_columns self df in
      match missing with
      | _ :: _ =>
          logger.error [L "Missing columns in CSV: "; V (VNames missing)] ;;
          raise (missing_column_error missing df)
      | [] =>
          features <- lift (pd.drop df (drop_cols self df tn)) ;;
          logger.info [L "Features shape: "; V (VShape (pd.shape features))] ;;
          target <- (if truthy (id_column self) && include_id_in_target
                     then
                       t <- lift (pd.getitem_list df [label_of (id_column self); LStr tn]) ;;
                       ret (pd.TFrame (pd.copy t))
                     else
                       t <- lift (pd.getitem df (LStr tn)) ;;
                       ret (pd.copy t)) ;;
          logger.info [L "Target shape: "; V (VShape (pd.shape_of target))] ;;
          ret (features, target)
      end
  end.

(** ** Names for what the statements below talk about *)

(** The record line 43 logs before the read. *)
Definition reading_record (self : DataFetcher) : LogRecord :=
  mkLog INFO [L "Reading CSV file from "; V (VPath (csv_path self))] None.

(** The record line 73 logs when no target name was given. *)
Definition not_specified_record : LogRecord :=
  mkLog ERROR [L "Target column not specified in DataFetcher initialization."] None.

(** The target lines 94-97 build from the loaded table, the log left aside. *)
Definition target_of (self : DataFetcher) (include_id_in_target : bool)
    (df : pd.DataFrame) (tn : string) : Outcome pd.Selection :=
  if truthy (id_column self) && include_id_in_target
  then match pd.getitem_list df [label_of (id_column self); LStr tn] with
       | Return t => Return (pd.TFrame t)
       | Raise e => Raise e
       end
  else pd.getitem df (LStr tn).

(** ** What the renaming of header names keeps *)

(** Whether header field [i] is blank. *)
Definition blank_at (hdr : list string) (i : nat) : bool :=
  match nth_error hdr i with
  | Some name => String.eqb name ""
  | None => false
  end.

(** A header field that keeps its name: not blank, and not a repeat of a
    field before it. *)
Definition first_named (hdr : list string) (i : nat) : Prop :=
  exists s, nth_error hdr i = Some s /\ s <> "" /\ ~ In s (firstn i hdr).

(** The invariant of [for i in col_loop_order], with [P] the positions dealt
    with so far, [h] and [c] the loop's [this_header] and [counts], [h0] the
    header as first built: positions not dealt with hold their first name;
    the names at the positions dealt with are distinct, are the names
    counted, and, when renamed, are no first name of a position still to
    come; no name is empty; the positions in [good] keep their first name. *)
Definition mangle_inv (h0 : list string) (good : nat -> Prop) (P : list nat)
    (h : list string) (c : pd.Counts) : Prop :=
  length h = length h0 /\
  (forall i, ~ In i P -> nth_error h i = nth_error h0 i) /\
  (forall i j s, In i P -> In j P ->
                 nth_error h i = Some s -> nth_error h j = Some s -> i = j) /\
  (forall s, 0 < pd.counts_get c s <-> exists i, In i P /\ nth_error h i = Some s) /\
  (forall j s, In j P -> nth_error h j = Some s -> nth_error h0 j <> Some s ->
               forall i, ~ In i P -> nth_error h0 i <> Some s) /\
  ~ In "" h /\
  (forall j, In j P -> good j -> nth_error h j = nth_error h0 j).

(** ** What the methods leave in the log *)

(** The world with the records [rs] logged after what it holds. *)
Definition add_log (w : World) (rs : list LogRecord) : World :=
  mkWorld (fs w) (log w ++ rs) (io w).

(** The record line 45 logs after the read. *)
Definition loaded_record (df : pd.DataFrame) : LogRecord :=
  mkLog INFO [L "Loaded DataFrame with "; V (VNat (pd.len df)); L " rows and ";
              V (VNat (length (pd.columns df))); L " columns"] None.

(** The record line 48 logs, and the record line 51 logs for [exc]. *)
Definition not_found_record (self : DataFetcher) : LogRecord :=
  mkLog ERROR [L "CSV file not found: "; V (VPath (csv_path self))] None.

Definition unexpected_record (exc : exn) : LogRecord :=
  mkLog ERROR [L "Unexpected error reading CSV file: "; Interp (LExc exc)] (Some exc).

(** The second record of a load, by its outcome. *)
Definition load_record (self : DataFetcher) (o : Outcome pd.DataFrame) : LogRecord :=
  match o with
  | Return df => loaded_record df
  | Raise (FileNotFoundError _) => not_found_record self
  | Raise exc => unexpected_record exc
  end.

(** The records of lines 83, 91 and 98. *)
Definition missing_record (missing : list (option string)) : LogRecord :=
  mkLog ERROR [L "Missing columns in CSV: "; V (VNames missing)] None.

Definition features_record (features : pd.DataFrame) : LogRecord :=
  mkLog INFO [L "Features shape: "; V (VShape (pd.shape features))] None.

Definition target_record (target : pd.Selection) : LogRecord :=
  mkLog INFO [L "Target shape: "; V (VShape (pd.shape_of target))] None.

(** The fetcher [self] with [i] for its identifier column name. *)
Definition with_id (self : DataFetcher) (i : option string) : DataFetcher :=
  mkDataFetcher (csv_path self) (has_header self) (target_name self) i.

(** How many labels the split drops from a table whose labels are distinct:
    the target's, and the identifier's when it is a second, non-empty name. *)
Definition dropped_count (self : DataFetcher) (tn : string) : nat :=
  match id_column self with
  | Some i => if String.eqb i "" || String.eqb i tn then 1 else 2
  | None => 1
  end.

(** Whether the last record of a log is at error level. *)
Definition ends_with_error (records : list LogRecord) : bool :=
  match rev records with
  | r :: _ => match level r with ERROR => true | INFO => false end
  | [] => false
  end.

(** ** Concrete files and fetchers used in the examples *)

Definition transactions : list (list string) :=
  [ ["id"; "amount"; "label"];
    ["t1"; "10.5"; "0"];
    ["t2"; "99.0"; "1"];
    ["t3"; "7.25"; "0"] ].

(** Three records of two fields, no header row. *)
Definition pairs : list (list string) :=
  [ ["1"; "2"]; ["3"; "4"]; ["5"; "6"] ].

Definition disk (path : string) : FileState :=
  if String.eqb path "data.csv" then Records transactions
  else if String.eqb path "pairs.csv" then Records pairs
  else if String.eqb path "locked.csv" then Fails (PermissionError "locked.csv")
  else Absent.

Definition w0 : World := mkWorld disk [] [].

Definition fetcher : DataFetcher :=
  __init__ "data.csv" (Some "label") (Some "id") true.

Definition fetcher_no_target : DataFetcher := __init__ "data.csv" None (Some "id") true.
Definition fetcher_blank_target : DataFetcher := __init__ "data.csv" (Some "") (Some "id") true.
Definition fetcher_missing_file : DataFetcher := __init__ "missing.csv" (Some "label") None true.
Definition fetcher_locked_file : DataFetcher := __init__ "locked.csv" (Some "label") None true.
Definition fetcher_wrong_names : DataFetcher := __init__ "data.csv" (Some "fraud") (Some "row") true.
Definition fetcher_headerless : DataFetcher := __init__ "data.csv" (Some "label") None false.
Definition fetcher_absent_id : DataFetcher := __init__ "data.csv" (Some "label") (Some "row") true.

Definition fetcher_pairs : DataFetcher := __init__ "pairs.csv" None None false.
Definition fetcher_pairs_header : DataFetcher := __init__ "pairs.csv" None None true.

Definition fetcher_blank_id : DataFetcher := __init__ "data.csv" (Some "label") (Some "") true.
Definition fetcher_no_id : DataFetcher := __init__ "data.csv" (Some "label") None true.

Definition transactions_table : pd.DataFrame :=
  pd.frame_of [LStr "id"; LStr "amount"; LStr "label"] (tl transactions).

(** What the split of [transactions_table] gives: the features, and the
    target with and without the identifier. *)
Definition amounts_only : pd.DataFrame :=
  pd.mkFrame 3 [(LStr "amount", [Field "10.5"; Field "99.0"; Field "7.25"])].

Definition ids_and_labels : pd.Selection :=
  pd.TFrame (pd.mkFrame 3 [(LStr "id", [Field "t1"; Field "t2"; Field "t3"]);
                           (LStr "label", [Field "0"; Field "1"; Field "0"])]).

Definition labels_only : pd.Selection :=
  pd.TSeries (pd.mkSeries (LStr "label") [Field "0"; Field "1"; Field "0"]).

(** * Properties *)

(** ** Labels and membership *)

Lemma Label_eqb_eq (a b : Label) : Label_eqb a b = true <-> a = b.
Proof.
  destruct a as [s|n], b as [t|m]; simpl; split; intro H;
    try discriminate; try congruence.
  - apply String.eqb_eq in H. now subst.
  - injection H as ->. apply String.eqb_refl.
  - apply Nat.eqb_eq in H. now subst.
  - injection H as ->. apply Nat.eqb_refl.
Qed.

Lemma Label_eqb_refl (a : Label) : Label_eqb a a = true.
Proof. now apply Label_eqb_eq. Qed.

Lemma Label_eqb_neq (a b : Label) : Label_eqb a b = false <-> a <> b.
Proof.
  split.
  - intros H E. apply Label_eqb_eq in E. congruence.
  - intros H. destruct (Label_eqb a b) eqn:E; [|reflexivity].
    apply Label_eqb_eq in E. contradiction.
Qed.

Lemma contains_In (ls : list Label) (l : Label) : pd.contains ls l = true <-> In l ls.
Proof.
  unfold pd.contains. rewrite existsb_exists. split.
  - intros [x [Hin Heq]]. apply Label_eqb_eq in Heq. now subst.
  - intros Hin. exists l. split; [assumption | apply Label_eqb_refl].
Qed.

Lemma contains_not_In (ls : list Label) (l : Label) : pd.contains ls l = false <-> ~ In l ls.
Proof.
  rewrite <- contains_In. destruct (pd.contains ls l); split; intro H;
    congruence || (exfalso; now apply H).
Qed.

Lemma absent_nil (df : pd.DataFrame) (labels : list Label) :
  pd.absent df labels = [] <-> forall l, In l labels -> In l (pd.columns df).
Proof.
  unfold pd.absent. induction labels as [|a ls IH]; simpl.
  - split; [intros _ l [] | reflexivity].
  - destruct (pd.contains (pd.columns df) a) eqn:E; simpl.
    + rewrite IH. apply contains_In in E. split.
      * intros H l [<-|Hl]; auto.
      * intros H l Hl. apply H. now right.
    + split; [discriminate|]. intros H. apply contains_not_In in E.
      exfalso. apply E, H. now left.
Qed.

(** ** What a load returns and what it leaves behind *)

(** Runs the body of [_read_csv_file] up to the outcome of the read: two
    goals are left, the table returned and the exception raised. *)
Ltac run_load :=
  unfold _read_csv_file, try_except, bind, pd.read_csv, logger.info, logger.emit;
  simpl;
  destruct (pd.open_and_parse _ _ _) as [df|e]; simpl.

Lemma load_outcome (self : DataFetcher) (w : World) :
  fst (_read_csv_file self w) =
  pd.open_and_parse (fs w (csv_path self)) (csv_path self) (header_arg self).
Proof.
  run_load; [reflexivity|].
  destruct e; reflexivity.
Qed.

Lemma load_read_csv (self : DataFetcher) (w : World) :
  fst (_read_csv_file self w) = fst (pd.read_csv (csv_path self) (header_arg self) w).
Proof. now rewrite load_outcome. Qed.

Lemma load_fs (self : DataFetcher) (w : World) :
  fs (snd (_read_csv_file self w)) = fs w.
Proof.
  run_load; [reflexivity|].
  destruct e; reflexivity.
Qed.

Lemma load_io (self : DataFetcher) (w : World) :
  io (snd (_read_csv_file self w)) = io w ++ [ReadFile (csv_path self)].
Proof.
  run_load; [reflexivity|].
  destruct e; reflexivity.
Qed.

Lemma load_log (self : DataFetcher) (w : World) :
  exists r,
    log (snd (_read_csv_file self w)) = log w ++ [reading_record self; r] /\
    level r = match fst (_read_csv_file self w) with
              | Return _ => INFO
              | Raise _ => ERROR
              end.
Proof.
  run_load.
  - eexists. rewrite <- app_assoc. simpl. split; reflexivity.
  - destruct e; simpl; eexists; rewrite <- app_assoc; simpl; split; reflexivity.
Qed.

(** ** The frame [read_csv] builds *)

Lemma combine_seq_snd (A : Type) (l : list A) (k : nat) :
  map snd (combine (seq k (length l)) l) = l.
Proof.
  revert k. induction l as [|a l IH]; intros k; simpl; [reflexivity|].
  now rewrite IH.
Qed.

Lemma combine_seq_nth (A : Type) (l : list A) (k j : nat) :
  nth_error (combine (seq k (length l)) l) j =
  option_map (fun x => (k + j, x)) (nth_error l j).
Proof.
  revert k j. induction l as [|a l IH]; intros k j; simpl.
  - now destruct j.
  - destruct j as [|j]; simpl.
    + now rewrite Nat.add_0_r.
    + rewrite IH. now rewrite Nat.add_succ_r.
Qed.

Lemma frame_at_columns (lead : nat) (names : list Label) (recs : list (list string)) :
  pd.columns (pd.frame_at lead names recs) = names.
Proof.
  unfold pd.columns, pd.frame_at. simpl. rewrite map_map. simpl.
  apply combine_seq_snd.
Qed.

Lemma frame_at_wf (lead : nat) (names : list Label) (recs : list (list string)) :
  pd.wf (pd.frame_at lead names recs).
Proof.
  unfold pd.wf, pd.frame_at. simpl. apply Forall_forall.
  intros c Hc. apply in_map_iff in Hc. destruct Hc as [jn [<- _]]. simpl.
  apply length_map.
Qed.


Lemma frame_of_frame_at (names : list Label) (recs : list (list string)) :
  pd.frame_of names recs = pd.frame_at 0 names recs.
Proof. reflexivity. Qed.

Lemma frame_of_columns (names : list Label) (recs : list (list string)) :
  pd.columns (pd.frame_of names recs) = names.
Proof. rewrite frame_of_frame_at. apply frame_at_columns. Qed.

Lemma frame_of_wf (names : list Label) (recs : list (list string)) :
  pd.wf (pd.frame_of names recs).
Proof. rewrite frame_of_frame_at. apply frame_at_wf. Qed.

(** ** Names from numbers *)

Lemma to_uint_nonnil (n : nat) : Nat.to_uint n <> Decimal.Nil.
Proof.
  intros H. pose proof (Unsigned.of_to n) as E. rewrite H in E. simpl in E.
  subst n. discriminate H.
Qed.

Lemma decimal_inj (n m : nat) : pd.decimal n = pd.decimal m -> n = m.
Proof.
  unfold pd.decimal. intros H.
  apply (f_equal NilZero.uint_of_string) in H.
  rewrite !NilZero.usu in H by apply to_uint_nonnil.
  injection H as H. now apply Unsigned.to_uint_inj.
Qed.

Lemma append_inj_l (a x y : string) : (a ++ x = a ++ y)%string -> x = y.
Proof. induction a as [|c a IH]; simpl; intros H; [exact H|]. injection H as H. auto. Qed.

Lemma append_nonempty_r (a b : string) : b <> "" -> (a ++ b)%string <> "".
Proof. destruct a; simpl; [auto | discriminate]. Qed.

Lemma candidate_inj (old_col : string) (k k' : nat) :
  pd.candidate old_col k = pd.candidate old_col k' -> k = k'.
Proof.
  unfold pd.candidate. intros H. apply append_inj_l in H. simpl in H.
  injection H as H. now apply decimal_inj.
Qed.

Lemma candidate_nonempty (old_col : string) (k : nat) : pd.candidate old_col k <> "".
Proof. unfold pd.candidate. apply append_nonempty_r. simpl. discriminate. Qed.

(** ** pd.Counts, names, positions *)

Lemma counts_get_set (counts : pd.Counts) (col s : string) (n : nat) :
  pd.counts_get (pd.counts_set counts col n) s =
  if String.eqb s col then n else pd.counts_get counts s.
Proof.
  unfold pd.counts_get, pd.counts_set. simpl. now destruct (String.eqb s col).
Qed.

Lemma in_names_In (col : string) (names : list string) :
  pd.in_names col names = true <-> In col names.
Proof.
  unfold pd.in_names. rewrite existsb_exists. split.
  - intros [x [Hx He]]. apply String.eqb_eq in He. now subst.
  - intros H. exists col. split; [exact H | apply String.eqb_refl].
Qed.

Lemma set_nth_length (A : Type) (i : nat) (x : A) (l : list A) :
  length (pd.set_nth i x l) = length l.
Proof.
  revert i. induction l as [|a l IH]; intros [|i]; simpl; auto.
Qed.

Lemma set_nth_same (A : Type) (i : nat) (x : A) (l : list A) :
  i < length l -> nth_error (pd.set_nth i x l) i = Some x.
Proof.
  revert i. induction l as [|a l IH]; intros [|i]; simpl; intros H; try lia; auto.
  apply IH. lia.
Qed.

Lemma set_nth_other (A : Type) (i j : nat) (x : A) (l : list A) :
  i <> j -> nth_error (pd.set_nth i x l) j = nth_error l j.
Proof.
  revert i j. induction l as [|a l IH]; intros [|i] [|j]; simpl; intros H; auto.
  contradiction.
Qed.

Lemma set_nth_In (A : Type) (i : nat) (x y : A) (l : list A) :
  In y (pd.set_nth i x l) -> y = x \/ In y l.
Proof.
  revert i. induction l as [|a l IH]; intros [|i]; simpl; intros H; auto.
  - destruct H; auto.
  - destruct H as [H|H]; auto. apply IH in H. tauto.
Qed.

(** ** The loop that looks for a free name *)

Lemma mangle_loop_zero (fuel : nat) (h : list string) (old_col col : string) (c : pd.Counts) :
  pd.mangle_loop fuel h old_col (col, c, 0) = (col, c, 0).
Proof. destruct fuel; reflexivity. Qed.

Lemma mangle_loop_step (fuel : nat) (h : list string) (old_col col : string)
    (c : pd.Counts) (k : nat) :
  k <> 0 ->
  pd.mangle_loop (S fuel) h old_col (col, c, k) =
  if pd.in_names (pd.candidate old_col k) h
  then pd.mangle_loop fuel h old_col
         (pd.candidate old_col k, pd.counts_set c old_col (k + 1), k + 1)
  else pd.mangle_loop fuel h old_col
         (pd.candidate old_col k, pd.counts_set c old_col (k + 1),
          pd.counts_get (pd.counts_set c old_col (k + 1)) (pd.candidate old_col k)).
Proof.
  intros Hk. cbn [pd.mangle_loop]. destruct (Nat.eqb_spec k 0); [contradiction | reflexivity].
Qed.

Lemma mangle_loop_spec (h : list string) (old_col : string) :
  forall (fuel : nat) (c : pd.Counts) (k : nat) (col0 : string) (seen : list string),
    (forall s, 0 < pd.counts_get c s -> In s h) ->
    0 < pd.counts_get c old_col ->
    0 < k ->
    NoDup seen -> incl seen h ->
    (forall s, In s seen -> exists k', k' < k /\ s = pd.candidate old_col k') ->
    length h < length seen + fuel ->
    exists k' c',
      pd.mangle_loop fuel h old_col (col0, c, k) = (pd.candidate old_col k', c', 0) /\
      ~ In (pd.candidate old_col k') h /\
      (forall s, 0 < pd.counts_get c' s <-> 0 < pd.counts_get c s).
Proof.
  induction fuel as [|fuel IH]; intros c k col0 seen Hpos Hold Hk Hnd Hincl Hseen Hlen.
  - pose proof (NoDup_incl_length Hnd Hincl). lia.
  - rewrite mangle_loop_step by lia.
    assert (forall s, 0 < pd.counts_get (pd.counts_set c old_col (k + 1)) s <-> 0 < pd.counts_get c s)
      as Heq.
    { intros s. rewrite counts_get_set. destruct (String.eqb_spec s old_col) as [->|_].
      - split; intros _; [exact Hold | lia].
      - reflexivity. }
    destruct (pd.in_names (pd.candidate old_col k) h) eqn:Ein.
    + apply in_names_In in Ein.
      destruct (IH (pd.counts_set c old_col (k + 1)) (k + 1) (pd.candidate old_col k)
                   (pd.candidate old_col k :: seen)) as (k' & c' & Hrun & Hnot & Hc').
      * intros s Hs. apply Hpos. now apply Heq.
      * now apply Heq.
      * lia.
      * constructor; [|exact Hnd]. intros Hin.
        destruct (Hseen _ Hin) as (k'' & Hlt & E). apply candidate_inj in E. lia.
      * intros s [<-|Hs]; [exact Ein | now apply Hincl].
      * intros s [<-|Hs]; [exists k; split; [lia | reflexivity]|].
        destruct (Hseen _ Hs) as (k'' & Hlt & E). exists k''. split; [lia | exact E].
      * simpl. lia.
      * exists k', c'. split; [exact Hrun|]. split; [exact Hnot|].
        intros s. rewrite Hc'. apply Heq.
    + assert (~ In (pd.candidate old_col k) h) as Hnot.
      { intros Hin. apply in_names_In in Hin. congruence. }
      assert (pd.counts_get (pd.counts_set c old_col (k + 1)) (pd.candidate old_col k) = 0) as ->.
      { destruct (pd.counts_get (pd.counts_set c old_col (k + 1)) (pd.candidate old_col k)) eqn:E;
          [reflexivity|].
        exfalso. apply Hnot, Hpos, Heq. lia. }
      rewrite mangle_loop_zero. exists k, (pd.counts_set c old_col (k + 1)).
      split; [reflexivity|]. split; [exact Hnot | exact Heq].
Qed.

Lemma option_eq_dec_string (a b : option string) : {a = b} + {a <> b}.
Proof. decide equality. apply string_dec. Qed.

(** ** The invariant of the renaming loop *)

Lemma mangle_inv_init (h0 : list string) (good : nat -> Prop) :
  ~ In "" h0 -> mangle_inv h0 good [] h0 [].
Proof.
  intros Hnb. unfold mangle_inv. repeat split; try (intros; contradiction); auto.
  - unfold pd.counts_get. simpl. lia.
  - intros (i & [] & _).
Qed.

Lemma mangle_at_inv (h0 : list string) (good : nat -> Prop) (P : list nat)
    (h : list string) (c : pd.Counts) (i : nat) :
  mangle_inv h0 good P h c ->
  ~ In i P ->
  i < length h0 ->
  (good i -> forall j, In j P -> nth_error h0 j <> nth_error h0 i) ->
  mangle_inv h0 good (P ++ [i]) (fst (pd.mangle_at (h, c) i)) (snd (pd.mangle_at (h, c) i)).
Proof.
  intros (Hlen & Hun & Hdist & Hcnt & Hren & Hnb & Hkept) HiP Hi Hgood.
  destruct (nth_error h0 i) as [s0|] eqn:E0; [|apply nth_error_None in E0; lia].
  assert (nth_error h i = Some s0) as Ei by (rewrite Hun; auto).
  assert (forall s, 0 < pd.counts_get c s -> In s h) as Hpos.
  { intros s Hs. apply Hcnt in Hs. destruct Hs as (j & _ & Hj). eapply nth_error_In; eauto. }
  assert (exists col c1,
             pd.mangle_loop (S (length h)) h s0 (s0, c, pd.counts_get c s0) = (col, c1, 0) /\
             (forall s, 0 < pd.counts_get c1 s <-> 0 < pd.counts_get c s) /\
             col <> "" /\
             ((col = s0 /\ pd.counts_get c s0 = 0) \/ (~ In col h /\ 0 < pd.counts_get c s0)))
    as (col & c1 & Hrun & Hc1 & Hcolnb & Hcase).
  { destruct (pd.counts_get c s0) as [|k] eqn:Ek.
    - exists s0, c. rewrite mangle_loop_zero. repeat split; auto.
      intros ->. apply Hnb. eapply nth_error_In; eauto.
    - destruct (mangle_loop_spec h s0 (S (length h)) c (S k) s0 [])
        as (k' & c' & Hrun & Hnot & Hc'); try lia; auto.
      + constructor.
      + intros s [].
      + intros s [].
      + exists (pd.candidate s0 k'), c'. repeat split; try apply Hc'; auto.
        * apply candidate_nonempty.
        * right. split; [exact Hnot | lia]. }
  assert (forall j, In j P -> nth_error h j <> Some col) as Hfresh.
  { intros j Hj Hjc. destruct Hcase as [[-> Hz]|[Hnot _]].
    - assert (0 < pd.counts_get c s0) by (apply Hcnt; eauto). lia.
    - apply Hnot. eapply nth_error_In; eauto. }
  assert (i < length h) as Hih by lia.
  unfold pd.mangle_at. rewrite Ei, Hrun. cbn [fst snd].
  assert (forall j, In j P -> j <> i) as Hne by (intros j Hj ->; contradiction).
  unfold mangle_inv. repeat split.
  - now rewrite set_nth_length.
  - intros j Hj. rewrite in_app_iff in Hj. simpl in Hj.
    rewrite set_nth_other by (intros ->; intuition congruence). apply Hun. intuition congruence.
  - intros a b s Ha Hb Has Hbs. rewrite in_app_iff in Ha, Hb. simpl in Ha, Hb.
    destruct (Nat.eq_dec a i) as [->|Hai], (Nat.eq_dec b i) as [->|Hbi]; auto.
    + rewrite set_nth_same in Has by exact Hih. injection Has as <-.
      rewrite set_nth_other in Hbs by auto.
      exfalso. apply (Hfresh b); [intuition congruence | exact Hbs].
    + rewrite set_nth_same in Hbs by exact Hih. injection Hbs as <-.
      rewrite set_nth_other in Has by auto.
      exfalso. apply (Hfresh a); [intuition congruence | exact Has].
    + rewrite set_nth_other in Has, Hbs by auto.
      apply (Hdist a b s); intuition congruence.
  - rewrite counts_get_set. destruct (String.eqb_spec s col) as [->|Hsc].
    + intros _. exists i. split; [apply in_app_iff; right; now left|].
      now apply set_nth_same.
    + intros Hs. apply Hc1, Hcnt in Hs. destruct Hs as (j & Hj & Hjs).
      exists j. split; [apply in_app_iff; now left|].
      rewrite set_nth_other; [exact Hjs | intros ->; contradiction].
  - rewrite counts_get_set. destruct (String.eqb_spec s col) as [->|Hsc]; [lia|].
    intros (j & Hj & Hjs). apply Hc1, Hcnt. rewrite in_app_iff in Hj. simpl in Hj.
    destruct (Nat.eq_dec j i) as [->|Hji].
    + rewrite set_nth_same in Hjs by exact Hih. congruence.
    + rewrite set_nth_other in Hjs by auto. exists j. split; [intuition congruence | exact Hjs].
  - intros j s Hj Hjs Hj0 i' Hi'. rewrite in_app_iff in Hj, Hi'. simpl in Hj, Hi'.
    destruct (Nat.eq_dec j i) as [->|Hji].
    + rewrite set_nth_same in Hjs by exact Hih. injection Hjs as <-.
      destruct Hcase as [[-> _]|[Hnot _]]; [congruence|].
      intros Hi0. apply Hnot. rewrite <- Hun in Hi0 by intuition congruence.
      eapply nth_error_In; eauto.
    + rewrite set_nth_other in Hjs by auto.
      apply (Hren j s); intuition congruence.
  - intros Hin. apply set_nth_In in Hin. destruct Hin as [Hin|Hin]; [congruence | contradiction].
  - intros j Hj Hgj. rewrite in_app_iff in Hj. simpl in Hj.
    destruct (Nat.eq_dec j i) as [->|Hji].
    + rewrite set_nth_same by exact Hih. rewrite E0. f_equal.
      destruct Hcase as [[-> _]|[_ Hposs0]]; [reflexivity|].
      exfalso. apply Hcnt in Hposs0. destruct Hposs0 as (j & Hj' & Hjs).
      destruct (option_eq_dec_string (nth_error h0 j) (Some s0)) as [Hj0|Hj0].
      * apply (Hgood Hgj j Hj'). congruence.
      * apply (Hren j s0 Hj' Hjs Hj0 i HiP). exact E0.
    + rewrite set_nth_other by auto. apply Hkept; intuition congruence.
Qed.

Lemma mangle_fold_inv (h0 : list string) (good : nat -> Prop) :
  forall (rest P : list nat) (h : list string) (c : pd.Counts),
    mangle_inv h0 good P h c ->
    NoDup (P ++ rest) ->
    (forall i, In i rest -> i < length h0) ->
    (forall P1 i r, P ++ rest = P1 ++ i :: r -> good i ->
                    forall j, In j P1 -> nth_error h0 j <> nth_error h0 i) ->
    mangle_inv h0 good (P ++ rest)
        (fst (fold_left pd.mangle_at rest (h, c))) (snd (fold_left pd.mangle_at rest (h, c))).
Proof.
  induction rest as [|i rest IH]; intros P h c HI Hnd Hlt Hord.
  - rewrite app_nil_r. exact HI.
  - assert (~ In i P) as HiP.
    { intros Hin. apply NoDup_remove_2 in Hnd. apply Hnd, in_app_iff. now left. }
    pose proof (mangle_at_inv h0 good P h c i HI HiP (Hlt i (or_introl eq_refl))
                  (Hord P i rest eq_refl)) as HI'.
    cbn [fold_left]. destruct (pd.mangle_at (h, c) i) as [h' c']. cbn [fst snd] in HI'.
    replace (P ++ i :: rest) with ((P ++ [i]) ++ rest) in * by (now rewrite <- app_assoc).
    apply IH; auto.
    intros j Hj. apply Hlt. now right.
Qed.

(** ** The order of the loop *)

Lemma filter_seq_before (f : nat -> bool) :
  forall (n a : nat) (P : list nat) (i : nat) (r : list nat),
    filter f (seq a n) = P ++ i :: r ->
    forall j, In j P -> j < i /\ f j = true.
Proof.
  induction n as [|n IH]; intros a P i r E j Hj.
  - destruct P; discriminate.
  - simpl in E. destruct (f a) eqn:Ea.
    + destruct P as [|b P]; [contradiction|]. simpl in E. injection E as <- E.
      destruct Hj as [<-|Hj]; [|exact (IH _ _ _ _ E j Hj)].
      split; [|exact Ea].
      assert (In i (filter f (seq (S a) n))) as Hi by (rewrite E; apply in_elt).
      apply filter_In in Hi. destruct Hi as [Hi _]. apply in_seq in Hi. lia.
    + exact (IH _ _ _ _ E j Hj).
Qed.

Lemma app_split_in (A : Type) (l1 l2 P : list A) (i : A) (rest : list A) :
  l1 ++ l2 = P ++ i :: rest -> ~ In i l2 -> exists r, l1 = P ++ i :: r.
Proof.
  revert P. induction l1 as [|a l1 IH]; intros P E Hni.
  - simpl in E. exfalso. apply Hni. rewrite E. apply in_elt.
  - destruct P as [|b P]; simpl in E; injection E as <- E.
    + now exists l1.
    + destruct (IH P E Hni) as [r ->]. now exists r.
Qed.

Lemma unnamed_In (hdr : list string) (i : nat) :
  In i (pd.unnamed_col_indices hdr) <-> i < length hdr /\ blank_at hdr i = true.
Proof.
  unfold pd.unnamed_col_indices. rewrite filter_In, in_seq. fold (blank_at hdr i).
  split; intros [H1 H2]; split; auto; lia.
Qed.

Lemma not_in_unnamed (hdr : list string) (i : nat) :
  i < length hdr ->
  negb (existsb (Nat.eqb i) (pd.unnamed_col_indices hdr)) = negb (blank_at hdr i).
Proof.
  intros Hi. f_equal. destruct (blank_at hdr i) eqn:E.
  - apply existsb_exists. exists i. split; [now apply unnamed_In | apply Nat.eqb_refl].
  - destruct (existsb _ _) eqn:Ex; [|reflexivity].
    apply existsb_exists in Ex. destruct Ex as [j [Hj Hij]].
    apply Nat.eqb_eq in Hij. subst j. apply unnamed_In in Hj. destruct Hj. congruence.
Qed.

Lemma col_loop_order_regular (hdr : list string) :
  pd.col_loop_order hdr =
  filter (fun i => negb (blank_at hdr i)) (seq 0 (length hdr)) ++ pd.unnamed_col_indices hdr.
Proof.
  unfold pd.col_loop_order. f_equal. apply filter_ext_in.
  intros i Hi. apply in_seq in Hi. apply not_in_unnamed. lia.
Qed.

Lemma col_loop_order_In (hdr : list string) (i : nat) :
  In i (pd.col_loop_order hdr) <-> i < length hdr.
Proof.
  rewrite col_loop_order_regular, in_app_iff, filter_In, in_seq, unnamed_In.
  destruct (blank_at hdr i); simpl; split; intros H; try lia; intuition (try lia; try congruence).
Qed.

Lemma col_loop_order_NoDup (hdr : list string) : NoDup (pd.col_loop_order hdr).
Proof.
  rewrite col_loop_order_regular. apply NoDup_app.
  - apply NoDup_filter, seq_NoDup.
  - unfold pd.unnamed_col_indices. apply NoDup_filter, seq_NoDup.
  - intros i Hi Hu. apply filter_In in Hi. apply unnamed_In in Hu.
    destruct Hi as [_ Hi], Hu as [_ Hu]. rewrite Hu in Hi. discriminate.
Qed.

Lemma this_header0_nth (hdr : list string) (i : nat) :
  nth_error (pd.this_header0 hdr) i = option_map (pd.header_text i) (nth_error hdr i).
Proof.
  unfold pd.this_header0. rewrite nth_error_map, combine_seq_nth.
  now destruct (nth_error hdr i).
Qed.

Lemma this_header0_length (hdr : list string) : length (pd.this_header0 hdr) = length hdr.
Proof.
  unfold pd.this_header0. rewrite length_map, length_combine, length_seq. apply Nat.min_id.
Qed.

Lemma header_text_nonblank (i : nat) (s : string) : pd.header_text i s <> "".
Proof.
  unfold pd.header_text. destruct (String.eqb_spec s ""); [|assumption].
  apply append_nonempty_r. unfold pd.decimal.
  intros H. pose proof (to_uint_nonnil i) as Hn.
  apply (f_equal NilZero.uint_of_string) in H. rewrite NilZero.usu in H by exact Hn.
  discriminate H.
Qed.

Lemma this_header0_nonblank (hdr : list string) : ~ In "" (pd.this_header0 hdr).
Proof.
  intros H. apply In_nth_error in H. destruct H as [i H].
  rewrite this_header0_nth in H. destruct (nth_error hdr i); [|discriminate].
  injection H as H. now apply header_text_nonblank in H.
Qed.

Lemma col_loop_order_first_named (hdr : list string) (P1 : list nat) (i : nat) (r : list nat) :
  pd.col_loop_order hdr = P1 ++ i :: r ->
  first_named hdr i ->
  forall j, In j P1 -> nth_error (pd.this_header0 hdr) j <> nth_error (pd.this_header0 hdr) i.
Proof.
  intros E (s & Hs & Hne & Hfirst) j Hj.
  rewrite col_loop_order_regular in E.
  assert (blank_at hdr i = false) as Hbi.
  { unfold blank_at. rewrite Hs. now apply String.eqb_neq. }
  destruct (app_split_in _ _ _ _ _ _ E) as [r' E'].
  { intros Hu. apply unnamed_In in Hu. destruct Hu. congruence. }
  destruct (filter_seq_before _ _ _ _ _ _ E' j Hj) as [Hlt Hbj].
  apply negb_true_iff in Hbj. unfold blank_at in Hbj.
  rewrite !this_header0_nth, Hs.
  destruct (nth_error hdr j) as [sj|] eqn:Ej; [|discriminate].
  simpl. unfold pd.header_text. rewrite Hbj. apply String.eqb_neq in Hne. rewrite Hne.
  intros H. injection H as ->. apply Hfirst.
  apply (nth_error_In _ j). rewrite nth_error_firstn.
  destruct (Nat.ltb_spec j i); [exact Ej | lia].
Qed.

Lemma dedup_header_inv (hdr : list string) :
  mangle_inv (pd.this_header0 hdr) (first_named hdr) (pd.col_loop_order hdr) (pd.dedup_header hdr)
      (snd (fold_left pd.mangle_at (pd.col_loop_order hdr) (pd.this_header0 hdr, []))).
Proof.
  unfold pd.dedup_header.
  apply (mangle_fold_inv (pd.this_header0 hdr) (first_named hdr) (pd.col_loop_order hdr) []).
  - apply mangle_inv_init, this_header0_nonblank.
  - apply col_loop_order_NoDup.
  - intros i Hi. apply col_loop_order_In in Hi. now rewrite this_header0_length.
  - intros P1 i r E. now apply col_loop_order_first_named with (r := r).
Qed.

Lemma dedup_header_spec (hdr : list string) :
  length (pd.dedup_header hdr) = length hdr /\
  NoDup (pd.dedup_header hdr) /\
  ~ In "" (pd.dedup_header hdr) /\
  (forall j s, nth_error hdr j = Some s -> s <> "" -> ~ In s (firstn j hdr) ->
               nth_error (pd.dedup_header hdr) j = Some s).
Proof.
  destruct (dedup_header_inv hdr) as (Hlen & _ & Hdist & _ & _ & Hnb & Hkept).
  rewrite this_header0_length in Hlen.
  repeat split; auto.
  - apply NoDup_nth_error. intros i j Hi E.
    destruct (nth_error (pd.dedup_header hdr) i) as [s|] eqn:Es;
      [|apply nth_error_None in Es; lia].
    assert (j < length hdr) as Hj.
    { destruct (Nat.lt_ge_cases j (length hdr)) as [Hj|Hj]; [exact Hj|].
      rewrite <- Hlen in Hj. apply nth_error_None in Hj. congruence. }
    apply (Hdist i j s); auto; apply col_loop_order_In; lia.
  - intros j s Hs Hne Hfirst.
    assert (j < length hdr) as Hj by (apply nth_error_Some; congruence).
    rewrite Hkept.
    + rewrite this_header0_nth, Hs. simpl. unfold pd.header_text.
      apply String.eqb_neq in Hne. now rewrite Hne.
    + now apply col_loop_order_In.
    + now exists s.
Qed.

(** ** The labels of a loaded table *)

Lemma map_LStr_In (s : string) (names : list string) :
  In (LStr s) (map LStr names) <-> In s names.
Proof.
  rewrite in_map_iff. split.
  - intros [x [E Hx]]. injection E as ->. exact Hx.
  - intros H. now exists s.
Qed.

Lemma map_LStr_NoDup (names : list string) : NoDup names -> NoDup (map LStr names).
Proof.
  induction 1 as [|a l Ha Hl IH]; simpl; constructor; [|exact IH].
  now rewrite map_LStr_In.
Qed.

Lemma header_names_not_blank (hdr : list string) : ~ In (LStr "") (pd.header_names hdr).
Proof.
  unfold pd.header_names. rewrite map_LStr_In.
  now destruct (dedup_header_spec hdr) as (_ & _ & H & _).
Qed.


Lemma header_names_NoDup (hdr : list string) : NoDup (pd.header_names hdr).
Proof.
  unfold pd.header_names. apply map_LStr_NoDup.
  now destruct (dedup_header_spec hdr) as (_ & H & _).
Qed.


Lemma positions_not_str (n : nat) (s : string) : ~ In (LStr s) (map LInt (seq 0 n)).
Proof. intros H. apply in_map_iff in H. destruct H as [k [H _]]. discriminate. Qed.

Lemma positions_NoDup (n : nat) : NoDup (map LInt (seq 0 n)).
Proof.
  generalize 0. induction n as [|n IH]; intros a; simpl; constructor; [|apply IH].
  intros H. apply in_map_iff in H. destruct H as [k [E Hk]]. injection E as ->.
  apply in_seq in Hk. lia.
Qed.

(** ** What a successful parse is *)

Lemma not_too_long (width : nat) (recs : list (list string)) :
  existsb (pd.too_long width) recs = false <->
  Forall (fun r => length r <= width) recs.
Proof.
  rewrite Forall_forall. split.
  - intros Hex r Hr. destruct (Nat.ltb width (length r)) eqn:El.
    + assert (existsb (pd.too_long width) recs = true) as C
        by (apply existsb_exists; exists r; split; assumption).
      congruence.
    + now apply Nat.ltb_ge in El.
  - intros Hall. destruct (existsb _ recs) eqn:Ex; [|reflexivity].
    apply existsb_exists in Ex. destruct Ex as [r [Hr Hl]].
    specialize (Hall r Hr). unfold pd.too_long in Hl. apply Nat.ltb_lt in Hl. lia.
Qed.

Lemma length_eqb_0 (A : Type) (l : list A) : (length l =? 0)%nat = false <-> l <> [].
Proof.
  destruct l; simpl; split; intros H; try discriminate; try reflexivity; now contradiction H.
Qed.

Lemma parse_header_inv (rows : list (list string)) (n : nat) (df : pd.DataFrame) :
  pd.parse rows (Some n) = Return df ->
  exists hdr recs,
    skipn n rows = hdr :: recs /\ hdr <> [] /\
    Forall (fun r => length r <= pd.width_of hdr recs) recs /\
    df = pd.frame_at (pd.width_of hdr recs - length hdr) (pd.header_names hdr) recs.
Proof.
  unfold pd.parse. destruct (skipn n rows) as [|hdr recs]; [discriminate|].
  destruct (length hdr =? 0)%nat eqn:E0; [discriminate|].
  destruct (existsb _ recs) eqn:Ex; [discriminate|].
  intros H. injection H as <-. exists hdr, recs. repeat split.
  - now apply length_eqb_0.
  - now apply not_too_long.
Qed.

Lemma parse_headerless_inv (rows : list (list string)) (df : pd.DataFrame) :
  pd.parse rows None = Return df ->
  exists first rest,
    rows = first :: rest /\ first <> [] /\
    Forall (fun r => length r <= length first) rest /\
    df = pd.frame_of (map LInt (seq 0 (length first))) rows.
Proof.
  unfold pd.parse. destruct rows as [|first rest]; [discriminate|].
  destruct (length first =? 0)%nat eqn:E0; [discriminate|].
  destruct (existsb _ (first :: rest)) eqn:Ex; [discriminate|].
  intros H. injection H as <-. exists first, rest. repeat split.
  - now apply length_eqb_0.
  - apply not_too_long in Ex. now inversion Ex.
Qed.



(** Every table a load returns has one scalar per row in each column,
    distinct labels, and no column labelled with the empty string. *)
Lemma loaded_inv (self : DataFetcher) (w : World) (df : pd.DataFrame) :
  fst (_read_csv_file self w) = Return df ->
  exists rows, fs w (csv_path self) = Records rows /\
               pd.parse rows (header_arg self) = Return df.
Proof.
  rewrite load_outcome. unfold pd.open_and_parse.
  destruct (fs w (csv_path self)) as [|e|rows]; try discriminate.
  intros H. now exists rows.
Qed.

Lemma loaded_wf (self : DataFetcher) (w : World) (df : pd.DataFrame) :
  fst (_read_csv_file self w) = Return df -> pd.wf df.
Proof.
  intros H. apply loaded_inv in H. destruct H as [rows [_ H]].
  destruct (header_arg self) as [n|].
  - apply parse_header_inv in H. destruct H as (hdr & recs & _ & _ & _ & ->).
    apply frame_at_wf.
  - apply parse_headerless_inv in H. destruct H as (f & r & _ & _ & _ & ->).
    apply frame_of_wf.
Qed.

Lemma loaded_no_blank (self : DataFetcher) (w : World) (df : pd.DataFrame) :
  fst (_read_csv_file self w) = Return df -> ~ In (LStr "") (pd.columns df).
Proof.
  intros H. apply loaded_inv in H. destruct H as [rows [_ H]].
  destruct (header_arg self) as [n|].
  - apply parse_header_inv in H. destruct H as (hdr & recs & _ & _ & _ & ->).
    rewrite frame_at_columns. apply header_names_not_blank.
  - apply parse_headerless_inv in H. destruct H as (f & r & _ & _ & _ & ->).
    rewrite frame_of_columns. apply positions_not_str.
Qed.

Lemma loaded_NoDup (self : DataFetcher) (w : World) (df : pd.DataFrame) :
  fst (_read_csv_file self w) = Return df -> NoDup (pd.columns df).
Proof.
  intros H. apply loaded_inv in H. destruct H as [rows [_ H]].
  destruct (header_arg self) as [n|].
  - apply parse_header_inv in H. destruct H as (hdr & recs & _ & _ & _ & ->).
    rewrite frame_at_columns. apply header_names_NoDup.
  - apply parse_headerless_inv in H. destruct H as (f & r & _ & _ & _ & ->).
    rewrite frame_of_columns. apply positions_NoDup.
Qed.

Lemma loaded_headerless (self : DataFetcher) (w : World) (df : pd.DataFrame) (s : string) :
  has_header self = false ->
  fst (_read_csv_file self w) = Return df ->
  ~ In (LStr s) (pd.columns df).
Proof.
  intros Hh H. apply loaded_inv in H. destruct H as [rows [_ H]].
  unfold header_arg in H. rewrite Hh in H.
  apply parse_headerless_inv in H. destruct H as (f & r & _ & _ & _ & ->).
  rewrite frame_of_columns. apply positions_not_str.
Qed.

(** ** The split, by cases *)

Lemma split_outcome (self : DataFetcher) (inc : bool) (w : World) (tn : string) :
  target_name self = Some tn ->
  fst (get_features_and_target self inc w) =
  match fst (_read_csv_file self w) with
  | Raise e => Raise e
  | Return df =>
      match missing_columns self df with
      | _ :: _ => Raise (missing_column_error (missing_columns self df) df)
      | [] =>
          match pd.drop df (drop_cols self df tn) with
          | Raise e => Raise e
          | Return X =>
              match target_of self inc df tn with
              | Raise e => Raise e
              | Return y => Return (X, y)
              end
          end
      end
  end.
Proof.
  intros Ht. unfold get_features_and_target. rewrite Ht.
  unfold bind at 1. destruct (_read_csv_file self w) as [[df|e] w1]; simpl; [|reflexivity].
  destruct (missing_columns self df) as [|m ms]; [|reflexivity].
  unfold bind, lift, ret, logger.info, logger.emit, target_of, pd.copy. simpl.
  destruct (pd.drop df (drop_cols self df tn)) as [X|e]; simpl; [|reflexivity].
  destruct (truthy (id_column self) && inc); simpl.
  - destruct (pd.getitem_list df _) as [t|e]; reflexivity.
  - destruct (pd.getitem df (LStr tn)) as [t|e]; reflexivity.
Qed.

Lemma split_inv (self : DataFetcher) (inc : bool) (w : World)
    (X : pd.DataFrame) (y : pd.Selection) :
  fst (get_features_and_target self inc w) = Return (X, y) ->
  exists tn df,
    target_name self = Some tn /\
    fst (_read_csv_file self w) = Return df /\
    missing_columns self df = [] /\
    pd.drop df (drop_cols self df tn) = Return X /\
    target_of self inc df tn = Return y.
Proof.
  destruct (target_name self) as [tn|] eqn:Ht.
  - rewrite (split_outcome self inc w tn Ht).
    destruct (fst (_read_csv_file self w)) as [df|e]; [|discriminate].
    destruct (missing_columns self df) as [|m ms] eqn:Hm; [|discriminate].
    destruct (pd.drop df (drop_cols self df tn)) as [X'|e] eqn:Hd; [|discriminate].
    destruct (target_of self inc df tn) as [y'|e] eqn:Hy; [|discriminate].
    intros H. injection H as <- <-. exists tn, df. repeat split; assumption.
  - unfold get_features_and_target. rewrite Ht. discriminate.
Qed.

(** The same, for the table and the target name at hand. *)
Lemma split_inv_at (self : DataFetcher) (inc : bool) (w : World)
    (X : pd.DataFrame) (y : pd.Selection) (df : pd.DataFrame) (tn : string) :
  fst (get_features_and_target self inc w) = Return (X, y) ->
  fst (_read_csv_file self w) = Return df ->
  target_name self = Some tn ->
  missing_columns self df = [] /\
  pd.drop df (drop_cols self df tn) = Return X /\
  target_of self inc df tn = Return y.
Proof.
  intros Hs Hl Ht. apply split_inv in Hs.
  destruct Hs as (tn' & df' & Ht' & Hl' & Hm & Hd & Hy).
  rewrite Ht in Ht'. rewrite Hl in Hl'.
  injection Ht' as <-. injection Hl' as <-. auto.
Qed.

(** A name is in the list of missing columns exactly when it is configured,
    not empty, and labels no column. *)
Lemma missing_columns_spec (self : DataFetcher) (df : pd.DataFrame) (c : option string) :
  In c (missing_columns self df) <->
  In c [target_name self; id_column self] /\ truthy c = true /\
  ~ In (label_of c) (pd.columns df).
Proof.
  unfold missing_columns. rewrite filter_In. unfold is_missing, truthy, label_of.
  destruct c as [s|].
  - rewrite andb_true_iff, negb_true_iff, negb_true_iff, contains_not_In. tauto.
  - split; [intros [_ H]; discriminate | intros [_ [H _]]; discriminate].
Qed.

(** ** Errors of the split *)

(** C5, as the code has it: when no target column name was given ([None]),
    the split raises the configuration error ValueError ("target_column_name
    must be provided ...") and has attempted no read: the trace of reads is
    what it was, and the only log record added is the error's. *)
Theorem no_target_fails_before_io (self : DataFetcher) (inc : bool) (w : World) :
  target_name self = None ->
  get_features_and_target self inc w =
  (Raise target_not_specified,
   mkWorld (fs w) (log w ++ [not_specified_record]) (io w)).
Proof.
  intros Ht. unfold get_features_and_target. rewrite Ht. reflexivity.
Qed.

Lemma no_target_fails_before_io_witness :
  target_name fetcher_no_target = None /\
  get_features_and_target fetcher_no_target true w0 =
  (Raise target_not_specified, mkWorld disk [not_specified_record] []).
Proof.
  split; [reflexivity|].
  exact (no_target_fails_before_io fetcher_no_target true w0 eq_refl).
Defined.

(** C5 as the specification states it fails for the empty string: the guard
    of line 72 tests [is None], so a fetcher whose target name is [""] gets
    past it, reads the file, and fails later, in [df.drop], with pandas'
    KeyError. *)
Lemma blank_target_reads_the_file :
  truthy (target_name fetcher_blank_target) = false /\
  fst (get_features_and_target fetcher_blank_target true w0) =
    Raise (KeyError [Interp (VLabels [LStr ""]); Lit " not found in axis"]) /\
  io (snd (get_features_and_target fetcher_blank_target true w0)) = [ReadFile "data.csv"].
Proof. repeat split; reflexivity. Qed.

(** ** Errors of the load *)

(** C7: a load of a file that does not exist raises FileNotFoundError; any
    exception [pd.read_csv] raises is the exception the load raises,
    unchanged; and a load that returns a table returns the one [pd.read_csv]
    produced, never a default put in its place. *)
Theorem load_failures_propagate (self : DataFetcher) (w : World) :
  (fs w (csv_path self) = Absent ->
   fst (_read_csv_file self w) = Raise (FileNotFoundError (csv_path self))) /\
  (forall e, fst (pd.read_csv (csv_path self) (header_arg self) w) = Raise e ->
             fst (_read_csv_file self w) = Raise e) /\
  (forall df, fst (_read_csv_file self w) = Return df ->
              fst (pd.read_csv (csv_path self) (header_arg self) w) = Return df).
Proof.
  repeat split.
  - intros Ha. rewrite load_outcome, Ha. reflexivity.
  - intros e He. now rewrite load_read_csv.
  - intros df Hd. now rewrite <- load_read_csv.
Qed.

Lemma load_failures_propagate_witness :
  fst (_read_csv_file fetcher_missing_file w0) = Raise (FileNotFoundError "missing.csv") /\
  fst (_read_csv_file fetcher_locked_file w0) = Raise (PermissionError "locked.csv") /\
  fst (pd.read_csv "data.csv" (Some 0) w0) =
    Return (pd.frame_of [LStr "id"; LStr "amount"; LStr "label"] (tl transactions)).
Proof.
  split; [|split].
  - exact (proj1 (load_failures_propagate fetcher_missing_file w0) eq_refl).
  - exact (proj1 (proj2 (load_failures_propagate fetcher_locked_file w0))
                 (PermissionError "locked.csv") eq_refl).
  - exact (proj2 (proj2 (load_failures_propagate fetcher w0))
                 (pd.frame_of [LStr "id"; LStr "amount"; LStr "label"] (tl transactions))
                 eq_refl).
Defined.

(** C9: a second load gives the outcome of the first (the same table, or the
    same exception) whenever the file at the configured path is, when the
    second call runs, what the first call left; the log and the trace of
    reads of the first call, and every other file, may be anything. *)
Theorem load_twice_same (self : DataFetcher) (w w2 : World) :
  fs w2 (csv_path self) = fs (snd (_read_csv_file self w)) (csv_path self) ->
  fst (_read_csv_file self w2) = fst (_read_csv_file self w).
Proof.
  intros Hfs. rewrite load_fs in Hfs. now rewrite !load_outcome, Hfs.
Qed.

Lemma load_twice_same_witness :
  fst (_read_csv_file fetcher (snd (_read_csv_file fetcher w0))) =
  fst (_read_csv_file fetcher w0).
Proof.
  exact (load_twice_same fetcher w0 (snd (_read_csv_file fetcher w0)) eq_refl).
Defined.

(** ** Missing columns *)

(** C4: once the split has loaded the table, if some configured, non-empty
    name (target or identifier) labels no column, the split raises the
    KeyError "Columns not found in CSV: ... Available: ..." whose first list
    holds every such name and whose second list is all the table's columns;
    the outcome is that exception, no features and no target. *)
Theorem missing_columns_raise (self : DataFetcher) (inc : bool) (w : World)
    (tn : string) (df : pd.DataFrame) :
  target_name self = Some tn ->
  fst (_read_csv_file self w) = Return df ->
  missing_columns self df <> [] ->
  fst (get_features_and_target self inc w) =
    Raise (KeyError [Lit "Columns not found in CSV: ";
                     Interp (VNames (missing_columns self df));
                     Lit ". Available: ";
                     Interp (VLabels (pd.columns df))]) /\
  (forall c, In c [target_name self; id_column self] ->
             truthy c = true ->
             ~ In (label_of c) (pd.columns df) ->
             In c (missing_columns self df)).
Proof.
  intros Ht Hl Hm. split.
  - rewrite (split_outcome self inc w tn Ht), Hl.
    destruct (missing_columns self df); [contradiction | reflexivity].
  - intros c Hc Htr Hab. apply missing_columns_spec. auto.
Qed.

Lemma missing_columns_raise_witness :
  fst (get_features_and_target fetcher_wrong_names true w0) =
    Raise (KeyError [Lit "Columns not found in CSV: ";
                     Interp (VNames [Some "fraud"; Some "row"]);
                     Lit ". Available: ";
                     Interp (VLabels [LStr "id"; LStr "amount"; LStr "label"])]).
Proof.
  refine (proj1 (missing_columns_raise fetcher_wrong_names true w0
                   "fraud" transactions_table eq_refl eq_refl _)).
  discriminate.
Defined.

(** C10: without a header row the columns are labelled with integers, so a
    non-empty target name labels none of them: whenever the file loads, the
    split raises the missing-columns KeyError, and the target name is among
    the names it lists. *)
Theorem headerless_split_raises (self : DataFetcher) (inc : bool) (w : World)
    (tn : string) (df : pd.DataFrame) :
  has_header self = false ->
  target_name self = Some tn ->
  tn <> "" ->
  fst (_read_csv_file self w) = Return df ->
  fst (get_features_and_target self inc w) =
    Raise (missing_column_error (missing_columns self df) df) /\
  In (Some tn) (missing_columns self df) /\
  (forall s, ~ In (LStr s) (pd.columns df)).
Proof.
  intros Hh Ht Hne Hl.
  assert (In (Some tn) (missing_columns self df)) as Hin.
  { apply missing_columns_spec. repeat split.
    - rewrite Ht. now left.
    - simpl. apply negb_true_iff. now apply String.eqb_neq.
    - simpl. now apply (loaded_headerless self w). }
  repeat split.
  - rewrite (split_outcome self inc w tn Ht), Hl.
    destruct (missing_columns self df); [contradiction | reflexivity].
  - exact Hin.
  - intros s. now apply (loaded_headerless self w).
Qed.

Lemma headerless_split_raises_witness :
  fst (get_features_and_target fetcher_headerless true w0) =
    Raise (KeyError [Lit "Columns not found in CSV: ";
                     Interp (VNames [Some "label"]);
                     Lit ". Available: ";
                     Interp (VLabels [LInt 0; LInt 1; LInt 2])]).
Proof.
  refine (proj1 (headerless_split_raises fetcher_headerless true w0
                   "label" (pd.frame_of [LInt 0; LInt 1; LInt 2] transactions)
                   eq_refl eq_refl _ eq_refl)).
  discriminate.
Defined.

(** C6, as the code has it: when a non-empty identifier name is configured
    and labels no column of the loaded table, while the target column is
    there, the split raises the missing-columns KeyError, which lists the
    identifier alone, whether include-id-in-target is true or false. *)
Theorem absent_id_raises (self : DataFetcher) (inc : bool) (w : World)
    (tn i : string) (df : pd.DataFrame) :
  target_name self = Some tn ->
  id_column self = Some i ->
  i <> "" ->
  fst (_read_csv_file self w) = Return df ->
  In (LStr tn) (pd.columns df) ->
  ~ In (LStr i) (pd.columns df) ->
  fst (get_features_and_target self inc w) = Raise (missing_column_error [Some i] df).
Proof.
  intros Ht Hi Hne Hl Htn Hid.
  rewrite (split_outcome self inc w tn Ht), Hl.
  assert (missing_columns self df = [Some i]) as ->; [|reflexivity].
  unfold missing_columns, is_missing. rewrite Ht, Hi. simpl.
  apply contains_In in Htn. apply contains_not_In in Hid. rewrite Htn, Hid.
  apply String.eqb_neq in Hne. rewrite Hne.
  rewrite andb_false_r. reflexivity.
Qed.

Lemma absent_id_raises_witness :
  fst (get_features_and_target fetcher_absent_id true w0) =
    Raise (missing_column_error [Some "row"] transactions_table) /\
  fst (get_features_and_target fetcher_absent_id false w0) =
    Raise (missing_column_error [Some "row"] transactions_table).
Proof.
  assert (In (LStr "label") (pd.columns transactions_table)) as Htn
    by (right; right; left; reflexivity).
  assert (~ In (LStr "row") (pd.columns transactions_table)) as Hid.
  { intros H. apply contains_In in H. discriminate H. }
  assert ("row" <> "") as Hne by discriminate.
  split.
  - exact (absent_id_raises fetcher_absent_id true w0 "label" "row" transactions_table
             eq_refl eq_refl Hne eq_refl Htn Hid).
  - exact (absent_id_raises fetcher_absent_id false w0 "label" "row" transactions_table
             eq_refl eq_refl Hne eq_refl Htn Hid).
Defined.

(** C6 as the specification states it fails when include-id-in-target is
    false: the identifier ["row"] is configured, the table has the target
    column and no column ["row"], and the split is no no-op, it raises the
    missing-columns KeyError. *)
Lemma absent_id_is_no_noop :
  truthy (id_column fetcher_absent_id) = true /\
  fst (_read_csv_file fetcher_absent_id w0) = Return transactions_table /\
  pd.contains (pd.columns transactions_table) (LStr "label") = true /\
  pd.contains (pd.columns transactions_table) (LStr "row") = false /\
  fst (get_features_and_target fetcher_absent_id false w0) =
    Raise (missing_column_error [Some "row"] transactions_table).
Proof. repeat split; reflexivity. Qed.

(** ** Selecting and dropping columns *)

Lemma drop_inv (df X : pd.DataFrame) (labels : list Label) :
  pd.drop df labels = Return X ->
  X = pd.mkFrame (pd.nrows df)
        (filter (fun c => negb (pd.contains labels (fst c))) (pd.data df)) /\
  (forall l, In l labels -> In l (pd.columns df)).
Proof.
  unfold pd.drop. destruct (pd.absent df labels) eqn:E; [|discriminate].
  intros H. injection H as <-. split; [reflexivity|]. now apply absent_nil.
Qed.

Lemma getitem_list_inv (df t : pd.DataFrame) (labels : list Label) :
  pd.getitem_list df labels = Return t ->
  t = pd.mkFrame (pd.nrows df) (flat_map (fun l => pd.labelled l (pd.data df)) labels) /\
  (forall l, In l labels -> In l (pd.columns df)).
Proof.
  unfold pd.getitem_list. destruct (pd.absent df labels) eqn:E; [|discriminate].
  intros H. injection H as <-. split; [reflexivity|]. now apply absent_nil.
Qed.

Lemma map_fst_filter (A B : Type) (f : A -> bool) (l : list (A * B)) :
  map fst (filter (fun c => f (fst c)) l) = filter f (map fst l).
Proof.
  induction l as [|[a b] l IH]; simpl; [reflexivity|].
  destruct (f a); simpl; now rewrite IH.
Qed.

Lemma iloc_filter (f : Label -> bool) (cs : list (Label * list Cell)) (i : nat) :
  map (fun c => (fst c, nth_error (snd c) i)) (filter (fun c => f (fst c)) cs) =
  filter (fun p => f (fst p)) (map (fun c => (fst c, nth_error (snd c) i)) cs).
Proof.
  induction cs as [|[a v] cs IH]; simpl; [reflexivity|].
  destruct (f a); simpl; now rewrite IH.
Qed.

Lemma labelled_nil (l : Label) (cs : list (Label * list Cell)) :
  ~ In l (map fst cs) -> pd.labelled l cs = [].
Proof.
  induction cs as [|[a v] cs IH]; simpl; intros H; [reflexivity|].
  destruct (Label_eqb l a) eqn:E.
  - apply Label_eqb_eq in E. exfalso. apply H. left. now symmetry.
  - apply IH. intros Hin. apply H. now right.
Qed.

Lemma labelled_unique (l : Label) (cs : list (Label * list Cell)) :
  NoDup (map fst cs) ->
  In l (map fst cs) ->
  exists vs, pd.labelled l cs = [(l, vs)] /\
             find (fun c => Label_eqb l (fst c)) cs = Some (l, vs).
Proof.
  induction cs as [|[a v] cs IH]; simpl; intros Hnd Hin; [contradiction|].
  inversion Hnd as [|? ? Hna Hnd']; subst.
  destruct (Label_eqb l a) eqn:E.
  - apply Label_eqb_eq in E. subst a. exists v.
    now rewrite (labelled_nil l cs Hna).
  - destruct Hin as [Heq|Hin].
    + subst a. now rewrite Label_eqb_refl in E.
    + exact (IH Hnd' Hin).
Qed.

(** After a successful split the target column is in the table, and so is
    the identifier column when its name is not empty. *)
Lemma split_columns_present (self : DataFetcher) (inc : bool) (w : World)
    (X : pd.DataFrame) (y : pd.Selection) (df : pd.DataFrame) (tn : string) :
  fst (get_features_and_target self inc w) = Return (X, y) ->
  fst (_read_csv_file self w) = Return df ->
  target_name self = Some tn ->
  In (LStr tn) (pd.columns df) /\
  (forall i, id_column self = Some i -> i <> "" -> In (LStr i) (pd.columns df)).
Proof.
  intros Hs Hl Ht.
  destruct (split_inv_at self inc w X y df tn Hs Hl Ht) as (Hm & Hd & _).
  apply drop_inv in Hd. destruct Hd as [_ Hin]. split.
  - apply Hin. unfold drop_cols. now left.
  - intros i Hi Hne.
    destruct (pd.contains (pd.columns df) (LStr i)) eqn:E; [now apply contains_In|].
    assert (In (Some i) (missing_columns self df)) as C.
    { apply missing_columns_spec. repeat split.
      - rewrite Hi. right. now left.
      - simpl. apply negb_true_iff. now apply String.eqb_neq.
      - simpl. now apply contains_not_In. }
    rewrite Hm in C. contradiction.
Qed.

(** The labels the split drops are the target's and the identifier's. *)
Lemma drop_cols_contains (self : DataFetcher) (w : World) (df : pd.DataFrame)
    (tn : string) (l : Label) :
  fst (_read_csv_file self w) = Return df ->
  In l (pd.columns df) ->
  pd.contains (drop_cols self df tn) l =
  Label_eqb l (LStr tn) ||
  match id_column self with
  | Some i => Label_eqb l (LStr i)
  | None => false
  end.
Proof.
  intros Hl Hin. unfold drop_cols. destruct (id_column self) as [i|]; simpl.
  - destruct (String.eqb i "") eqn:Ei; simpl.
    + apply String.eqb_eq in Ei. subst i.
      assert (Label_eqb l (LStr "") = false) as ->; [|reflexivity].
      apply Label_eqb_neq. intros ->. now apply (loaded_no_blank self w df Hl).
    + destruct (pd.contains (pd.columns df) (LStr i)) eqn:Ec; simpl.
      * now rewrite orb_false_r.
      * assert (Label_eqb l (LStr i) = false) as ->; [|reflexivity].
        apply Label_eqb_neq. intros ->. apply contains_not_In in Ec. contradiction.
  - reflexivity.
Qed.

(** ** The features *)

(** C2: after a successful split, the columns of the features are the
    columns of the loaded table, in the table's order, without the target
    column and without the identifier column when an identifier name was
    given; neither name labels a column of the features. *)
Theorem features_columns (self : DataFetcher) (inc : bool) (w : World)
    (X : pd.DataFrame) (y : pd.Selection) (df : pd.DataFrame) (tn : string) :
  fst (get_features_and_target self inc w) = Return (X, y) ->
  fst (_read_csv_file self w) = Return df ->
  target_name self = Some tn ->
  pd.columns X =
    filter (fun l => negb (Label_eqb l (LStr tn)) &&
                     negb (match id_column self with
                           | Some i => Label_eqb l (LStr i)
                           | None => false
                           end))
           (pd.columns df) /\
  ~ In (LStr tn) (pd.columns X) /\
  (forall i, id_column self = Some i -> ~ In (LStr i) (pd.columns X)).
Proof.
  intros Hs Hl Ht.
  assert (pd.columns X =
          filter (fun l => negb (Label_eqb l (LStr tn)) &&
                           negb (match id_column self with
                                 | Some i => Label_eqb l (LStr i)
                                 | None => false
                                 end))
                 (pd.columns df)) as Hc.
  { destruct (split_inv_at self inc w X y df tn Hs Hl Ht) as (_ & Hd & _).
    apply drop_inv in Hd. destruct Hd as [-> _].
    unfold pd.columns. cbn [pd.data].
    rewrite (map_fst_filter _ _ (fun l => negb (pd.contains (drop_cols self df tn) l))).
    apply filter_ext_in. intros l Hin.
    rewrite (drop_cols_contains self w df tn l Hl Hin). apply negb_orb. }
  split; [exact Hc|]. rewrite Hc. split.
  - intros H. apply filter_In in H. destruct H as [_ H].
    rewrite Label_eqb_refl in H. discriminate.
  - intros i Hi H. apply filter_In in H. destruct H as [_ H].
    rewrite Hi, Label_eqb_refl, andb_false_r in H. discriminate.
Qed.

Lemma features_columns_witness :
  pd.columns amounts_only = [LStr "amount"] /\
  ~ In (LStr "label") (pd.columns amounts_only) /\
  ~ In (LStr "id") (pd.columns amounts_only).
Proof.
  pose proof (features_columns fetcher true w0
                amounts_only ids_and_labels transactions_table "label"
                eq_refl eq_refl eq_refl) as [Hc [Ht Hi]].
  split; [exact Hc|]. split; [exact Ht|]. exact (Hi "id" eq_refl).
Defined.

(** ** The target *)

(** C3: after a successful split the target is, when a non-empty identifier
    name was given and include-id-in-target is true, the two-column frame of
    the identifier column followed by the target column, each with the
    table's scalars in the table's row order, on the table's rows; otherwise
    it is the Series named after the target with the target column's scalars
    in row order. (The labels of a loaded table are distinct, [loaded_NoDup],
    so each of the two names labels one column.) *)
Theorem target_shape (self : DataFetcher) (inc : bool) (w : World)
    (X : pd.DataFrame) (y : pd.Selection) (df : pd.DataFrame) (tn : string) :
  fst (get_features_and_target self inc w) = Return (X, y) ->
  fst (_read_csv_file self w) = Return df ->
  target_name self = Some tn ->
  if truthy (id_column self) && inc
  then exists ids tgts,
         pd.column df (label_of (id_column self)) = Some ids /\
         pd.column df (LStr tn) = Some tgts /\
         y = pd.TFrame (pd.mkFrame (pd.nrows df)
                          [(label_of (id_column self), ids); (LStr tn, tgts)])
  else exists tgts,
         pd.column df (LStr tn) = Some tgts /\
         y = pd.TSeries (pd.mkSeries (LStr tn) tgts).
Proof.
  intros Hs Hl Ht. pose proof (loaded_NoDup self w df Hl) as Hnd.
  destruct (split_columns_present self inc w X y df tn Hs Hl Ht) as [Htn Hid].
  destruct (split_inv_at self inc w X y df tn Hs Hl Ht) as (_ & _ & Hy).
  destruct (labelled_unique (LStr tn) (pd.data df) Hnd Htn) as [tgts [Hlt Hft]].
  unfold target_of in Hy.
  destruct (truthy (id_column self) && inc) eqn:E.
  - destruct (pd.getitem_list df _) as [t|e] eqn:Hg; [|discriminate].
    injection Hy as <-. apply getitem_list_inv in Hg. destruct Hg as [-> _].
    apply andb_true_iff in E. destruct E as [Etr _].
    destruct (id_column self) as [i|] eqn:Hi; [|discriminate]. simpl in Etr |- *.
    apply negb_true_iff, String.eqb_neq in Etr.
    destruct (labelled_unique (LStr i) (pd.data df) Hnd (Hid i eq_refl Etr))
      as [ids [Hli Hfi]].
    exists ids, tgts. unfold pd.column. rewrite Hfi, Hft, Hli, Hlt. auto.
  - unfold pd.getitem in Hy. rewrite Hlt in Hy. injection Hy as <-.
    exists tgts. unfold pd.column. rewrite Hft. auto.
Qed.

Lemma target_shape_witness :
  (exists ids tgts,
     pd.column transactions_table (LStr "id") = Some ids /\
     pd.column transactions_table (LStr "label") = Some tgts /\
     ids_and_labels =
     pd.TFrame (pd.mkFrame 3 [(LStr "id", ids); (LStr "label", tgts)])) /\
  (exists tgts,
     pd.column transactions_table (LStr "label") = Some tgts /\
     labels_only =
     pd.TSeries (pd.mkSeries (LStr "label") tgts)).
Proof.
  split.
  - exact (target_shape fetcher true w0
             amounts_only ids_and_labels transactions_table "label"
             eq_refl eq_refl eq_refl).
  - exact (target_shape fetcher false w0
             amounts_only labels_only transactions_table "label"
             eq_refl eq_refl eq_refl).
Defined.

(** ** Rows *)

Lemma labelled_In (l : Label) (cs : list (Label * list Cell)) (c : Label * list Cell) :
  In c (pd.labelled l cs) -> In c cs /\ fst c = l.
Proof.
  unfold pd.labelled. intros H. apply filter_In in H. destruct H as [Hin He].
  apply Label_eqb_eq in He. auto.
Qed.

Lemma getitem_len (df : pd.DataFrame) (l : Label) (y : pd.Selection) :
  pd.wf df -> pd.getitem df l = Return y -> pd.len_of y = pd.nrows df.
Proof.
  intros Hwf. unfold pd.getitem.
  destruct (pd.labelled l (pd.data df)) as [|c [|c' cs]] eqn:E; [discriminate| |].
  - intros H. injection H as <-. simpl.
    assert (In c (pd.labelled l (pd.data df))) as Hc by (rewrite E; now left).
    apply labelled_In in Hc. destruct Hc as [Hc _].
    unfold pd.wf in Hwf. rewrite Forall_forall in Hwf. exact (Hwf c Hc).
  - intros H. injection H as <-. reflexivity.
Qed.

Lemma getitem_iloc (df : pd.DataFrame) (l : Label) (y : pd.Selection) (i : nat) :
  pd.getitem df l = Return y ->
  pd.iloc_of y i = filter (fun p => Label_eqb l (fst p)) (pd.iloc df i).
Proof.
  unfold pd.getitem, pd.iloc.
  rewrite <- (iloc_filter (Label_eqb l)). fold (pd.labelled l (pd.data df)).
  destruct (pd.labelled l (pd.data df)) as [|c [|c' cs]] eqn:E; [discriminate| |].
  - intros H. injection H as <-. simpl.
    assert (In c (pd.labelled l (pd.data df))) as Hc by (rewrite E; now left).
    apply labelled_In in Hc. destruct Hc as [_ ->]. reflexivity.
  - intros H. injection H as <-. reflexivity.
Qed.

(** C1: after a successful split, the features and the target have as many
    rows as the loaded table, and row [i] of each is taken from row [i] of
    the table: row [i] of the features is row [i] of the table without the
    dropped labels, and row [i] of the target is row [i] of the table at the
    identifier and target labels (at the target label alone when the target
    is a Series). *)
Theorem rows_aligned (self : DataFetcher) (inc : bool) (w : World)
    (X : pd.DataFrame) (y : pd.Selection) (df : pd.DataFrame) (tn : string) :
  fst (get_features_and_target self inc w) = Return (X, y) ->
  fst (_read_csv_file self w) = Return df ->
  target_name self = Some tn ->
  pd.len X = pd.len df /\
  pd.len_of y = pd.len df /\
  forall i,
    pd.iloc X i =
      filter (fun p => negb (pd.contains (drop_cols self df tn) (fst p))) (pd.iloc df i) /\
    pd.iloc_of y i =
      flat_map (fun l => filter (fun p => Label_eqb l (fst p)) (pd.iloc df i))
               (if truthy (id_column self) && inc
                then [label_of (id_column self); LStr tn]
                else [LStr tn]).
Proof.
  intros Hs Hl Ht. pose proof (loaded_wf self w df Hl) as Hwf.
  destruct (split_inv_at self inc w X y df tn Hs Hl Ht) as (_ & Hd & Hy).
  apply drop_inv in Hd. destruct Hd as [-> _].
  unfold target_of in Hy. unfold pd.len.
  destruct (truthy (id_column self) && inc).
  - destruct (pd.getitem_list df _) as [t|e] eqn:Hg; [|discriminate].
    injection Hy as <-. apply getitem_list_inv in Hg. destruct Hg as [-> _].
    repeat split.
    + unfold pd.iloc. cbn [pd.data].
      apply (iloc_filter (fun l => negb (pd.contains (drop_cols self df tn) l))).
    + unfold pd.iloc_of, pd.iloc. cbn [pd.data flat_map].
      rewrite !map_app. unfold pd.labelled.
      now rewrite !(iloc_filter (Label_eqb _)).
  - repeat split.
    + now apply getitem_len with (l := LStr tn).
    + unfold pd.iloc. cbn [pd.data].
      apply (iloc_filter (fun l => negb (pd.contains (drop_cols self df tn) l))).
    + cbn [flat_map]. rewrite app_nil_r. now apply getitem_iloc.
Qed.

Lemma rows_aligned_witness :
  pd.len amounts_only = 3 /\
  pd.len_of ids_and_labels = 3 /\
  pd.iloc amounts_only 1 = [(LStr "amount", Some (Field "99.0"))] /\
  pd.iloc_of ids_and_labels 1 =
    [(LStr "id", Some (Field "t2")); (LStr "label", Some (Field "1"))].
Proof.
  pose proof (rows_aligned fetcher true w0 amounts_only ids_and_labels
                transactions_table "label" eq_refl eq_refl eq_refl) as [Hx [Hy Hi]].
  destruct (Hi 1) as [Hix Hiy].
  split; [exact Hx|]. split; [exact Hy|]. split; [exact Hix | exact Hiy].
Defined.

(** ** The header flag *)



(** The specification's example: three records of two fields, read without
    a header, are three rows under the labels [0] and [1]. *)
Example headerless_three_rows :
  fst (_read_csv_file fetcher_pairs w0) =
  Return (pd.mkFrame 3 [(LInt 0, [Field "1"; Field "3"; Field "5"]);
                        (LInt 1, [Field "2"; Field "4"; Field "6"])]).
Proof. reflexivity. Qed.

(** The same file read with the header flag: the first record is taken for
    the labels and two rows are left. *)
Example header_takes_first_record :
  fst (_read_csv_file fetcher_pairs_header w0) =
  Return (pd.mkFrame 2 [(LStr "1", [Field "3"; Field "5"]);
                        (LStr "2", [Field "4"; Field "6"])]).
Proof. reflexivity. Qed.

(** A repeated name is renamed, a blank field is named after its position,
    and rows with one field more than the header keep it as the row index. *)
Example repeated_header_names :
  pd.parse [["a"; "a"; ""; "b"]; ["1"; "2"; "3"; "4"]] (Some 0) =
  Return (pd.mkFrame 1 [(LStr "a", [Field "1"]); (LStr "a.1", [Field "2"]);
                        (LStr "Unnamed: 2", [Field "3"]); (LStr "b", [Field "4"])]).
Proof. reflexivity. Qed.

Example leading_field_is_index :
  pd.parse [["a"; "b"]; ["r1"; "1"; ""]; ["r2"; "3"; "4"]] (Some 0) =
  Return (pd.mkFrame 2 [(LStr "a", [Field "1"; Field "3"]);
                        (LStr "b", [NaN; Field "4"])]).
Proof. reflexivity. Qed.

(** ** When the split returns *)

Lemma labelled_nonempty (l : Label) (cs : list (Label * list Cell)) :
  In l (map fst cs) -> pd.labelled l cs <> [].
Proof.
  intros Hin. apply in_map_iff in Hin. destruct Hin as [c [Hc Hin]].
  assert (In c (pd.labelled l cs)) as H.
  { unfold pd.labelled. apply filter_In. split; [exact Hin|].
    rewrite Hc. apply Label_eqb_refl. }
  intros E. now rewrite E in H.
Qed.

(** The split returns features and a target whenever the file loads, the
    target name labels a column, and so does the identifier name when one
    that is not empty was given. *)
Lemma split_returns (self : DataFetcher) (inc : bool) (w : World)
    (tn : string) (df : pd.DataFrame) :
  target_name self = Some tn ->
  fst (_read_csv_file self w) = Return df ->
  In (LStr tn) (pd.columns df) ->
  (forall i, id_column self = Some i -> i <> "" -> In (LStr i) (pd.columns df)) ->
  exists X y, fst (get_features_and_target self inc w) = Return (X, y).
Proof.
  intros Ht Hl Htn Hid. rewrite (split_outcome self inc w tn Ht), Hl.
  pose proof Htn as Hct. apply contains_In in Hct.
  assert (missing_columns self df = []) as ->.
  { unfold missing_columns, is_missing. rewrite Ht. simpl. rewrite Hct, andb_false_r.
    destruct (id_column self) as [i|] eqn:Hi; [|reflexivity].
    destruct (String.eqb i "") eqn:Ei; [reflexivity|].
    apply String.eqb_neq in Ei. specialize (Hid i eq_refl Ei).
    apply contains_In in Hid. now rewrite Hid. }
  assert (pd.absent df (drop_cols self df tn) = []) as Hd.
  { apply absent_nil. intros l Hin. unfold drop_cols in Hin.
    destruct Hin as [<-|Hin]; [exact Htn|].
    destruct (id_column self) as [i|]; [|contradiction].
    destruct (truthy (Some i) && pd.contains (pd.columns df) (LStr i)) eqn:E;
      [|contradiction].
    destruct Hin as [<-|[]]. apply andb_true_iff in E. now apply contains_In. }
  unfold pd.drop. rewrite Hd. unfold target_of.
  destruct (truthy (id_column self) && inc) eqn:E.
  - assert (pd.absent df [label_of (id_column self); LStr tn] = []) as Hg.
    { apply absent_nil. intros l [<-|[<-|[]]]; [|exact Htn].
      apply andb_true_iff in E. destruct E as [E _].
      destruct (id_column self) as [i|]; [|discriminate]. simpl in E |- *.
      apply negb_true_iff, String.eqb_neq in E. now apply Hid. }
    unfold pd.getitem_list. rewrite Hg. eauto.
  - unfold pd.getitem. pose proof (labelled_nonempty (LStr tn) (pd.data df) Htn) as Hn.
    destruct (pd.labelled (LStr tn) (pd.data df)) as [|c [|c' cs]];
      [contradiction | eauto | eauto].
Qed.

(** * Further properties of the fetcher *)

(** ** Effects of a load *)

(** The world a load leaves, by its outcome. *)
Lemma load_world (self : DataFetcher) (w : World) :
  snd (_read_csv_file self w) =
  mkWorld (fs w)
          (log w ++ [reading_record self; load_record self (fst (_read_csv_file self w))])
          (io w ++ [ReadFile (csv_path self)]).
Proof.
  run_load.
  - now rewrite <- app_assoc.
  - destruct e; simpl; now rewrite <- app_assoc.
Qed.

(** X1: a load, whatever its outcome, changes no file, attempts one read, of
    the configured path, and logs two records: the announcement of the read,
    then the row and column counts at info level when a table is returned, or
    one record at error level when the read raised; the error record carries
    the exception unless it is FileNotFoundError. *)
Theorem load_effects (self : DataFetcher) (w : World) :
  fs (snd (_read_csv_file self w)) = fs w /\
  io (snd (_read_csv_file self w)) = io w ++ [ReadFile (csv_path self)] /\
  log (snd (_read_csv_file self w)) =
    log w ++ [reading_record self;
              match fst (_read_csv_file self w) with
              | Return df => loaded_record df
              | Raise (FileNotFoundError _) => not_found_record self
              | Raise exc => unexpected_record exc
              end].
Proof.
  rewrite load_world. simpl. repeat split.
Qed.

(** ** The split, with its effects *)

Lemma add_log_add_log (w : World) (rs ss : list LogRecord) :
  add_log (add_log w rs) ss = add_log w (rs ++ ss).
Proof. unfold add_log. simpl. now rewrite app_assoc. Qed.

(** The outcome and the world of a split that got past the guard of line 72,
    by cases on the load, the validation, the drop and the target. *)
Lemma split_run (self : DataFetcher) (inc : bool) (w : World) (tn : string) :
  target_name self = Some tn ->
  get_features_and_target self inc w =
  match fst (_read_csv_file self w) with
  | Raise e => (Raise e, snd (_read_csv_file self w))
  | Return df =>
      match missing_columns self df with
      | _ :: _ =>
          (Raise (missing_column_error (missing_columns self df) df),
           add_log (snd (_read_csv_file self w)) [missing_record (missing_columns self df)])
      | [] =>
          match pd.drop df (drop_cols self df tn) with
          | Raise e => (Raise e, snd (_read_csv_file self w))
          | Return X =>
              match target_of self inc df tn with
              | Raise e => (Raise e, add_log (snd (_read_csv_file self w)) [features_record X])
              | Return y =>
                  (Return (X, y),
                   add_log (snd (_read_csv_file self w))
                           [features_record X; target_record y])
              end
          end
      end
  end.
Proof.
  intros Ht. unfold get_features_and_target. rewrite Ht.
  unfold bind at 1. destruct (_read_csv_file self w) as [[df|e] w1]; simpl; [|reflexivity].
  destruct (missing_columns self df) as [|m ms]; [|reflexivity].
  unfold bind, lift, ret, logger.info, logger.emit, target_of, pd.copy, add_log. simpl.
  destruct (pd.drop df (drop_cols self df tn)) as [X|e]; simpl; [|reflexivity].
  destruct (truthy (id_column self) && inc); simpl.
  - destruct (pd.getitem_list df _) as [t|e]; simpl; [|reflexivity].
    now rewrite <- app_assoc.
  - destruct (pd.getitem df (LStr tn)) as [t|e]; simpl; [|reflexivity].
    now rewrite <- app_assoc.
Qed.

(** What the validation of lines 79-84 leaves to the rest of the split. *)
Lemma validated_present (self : DataFetcher) (df : pd.DataFrame) (tn : string) :
  target_name self = Some tn ->
  missing_columns self df = [] ->
  (tn <> "" -> In (LStr tn) (pd.columns df)) /\
  (forall i, id_column self = Some i -> i <> "" -> In (LStr i) (pd.columns df)).
Proof.
  intros Ht Hm.
  assert (forall c s, In c [target_name self; id_column self] -> c = Some s -> s <> "" ->
                      In (LStr s) (pd.columns df)) as H.
  { intros c s Hc -> Hne.
    destruct (pd.contains (pd.columns df) (LStr s)) eqn:E; [now apply contains_In|].
    assert (In (Some s) (missing_columns self df)) as C.
    { apply missing_columns_spec. repeat split; [exact Hc| |].
      - simpl. apply negb_true_iff. now apply String.eqb_neq.
      - simpl. now apply contains_not_In. }
    rewrite Hm in C. contradiction. }
  split.
  - intros Hne. apply (H (target_name self) tn); [now left | exact Ht | exact Hne].
  - intros i Hi Hne. apply (H (id_column self) i); [right; now left | exact Hi | exact Hne].
Qed.

Lemma drop_cols_present (self : DataFetcher) (df : pd.DataFrame) (tn : string) :
  In (LStr tn) (pd.columns df) ->
  pd.absent df (drop_cols self df tn) = [].
Proof.
  intros Htn. apply absent_nil. intros l Hin. unfold drop_cols in Hin.
  destruct Hin as [<-|Hin]; [exact Htn|].
  destruct (id_column self) as [i|]; [|contradiction].
  destruct (truthy (Some i) && pd.contains (pd.columns df) (LStr i)) eqn:E;
    [|contradiction].
  destruct Hin as [<-|[]]. apply andb_true_iff in E. now apply contains_In.
Qed.

Lemma target_of_returns (self : DataFetcher) (inc : bool) (df : pd.DataFrame) (tn : string) :
  In (LStr tn) (pd.columns df) ->
  (forall i, id_column self = Some i -> i <> "" -> In (LStr i) (pd.columns df)) ->
  exists y, target_of self inc df tn = Return y.
Proof.
  intros Htn Hid. unfold target_of.
  destruct (truthy (id_column self) && inc) eqn:E.
  - assert (pd.absent df [label_of (id_column self); LStr tn] = []) as Hg.
    { apply absent_nil. intros l [<-|[<-|[]]]; [|exact Htn].
      apply andb_true_iff in E. destruct E as [E _].
      destruct (id_column self) as [i|]; [|discriminate]. simpl in E |- *.
      apply negb_true_iff, String.eqb_neq in E. now apply Hid. }
    unfold pd.getitem_list. rewrite Hg. eauto.
  - unfold pd.getitem. pose proof (labelled_nonempty (LStr tn) (pd.data df) Htn) as Hn.
    destruct (pd.labelled (LStr tn) (pd.data df)) as [|c [|c' cs]];
      [contradiction | eauto | eauto].
Qed.

(** X2: an exception of the load is the exception of the split, and the split
    adds nothing to what the load left: no record is logged after the load's
    error record and no second read is attempted. *)
Theorem split_propagates_load_error (self : DataFetcher) (inc : bool) (w : World)
    (tn : string) (e : exn) :
  target_name self = Some tn ->
  fst (_read_csv_file self w) = Raise e ->
  get_features_and_target self inc w = (Raise e, snd (_read_csv_file self w)).
Proof.
  intros Ht He. rewrite (split_run self inc w tn Ht), He. reflexivity.
Qed.

Lemma split_propagates_load_error_witness :
  get_features_and_target fetcher_missing_file true w0 =
  (Raise (FileNotFoundError "missing.csv"),
   mkWorld disk
           [reading_record fetcher_missing_file; not_found_record fetcher_missing_file]
           [ReadFile "missing.csv"]).
Proof.
  exact (split_propagates_load_error fetcher_missing_file true w0 "label"
           (FileNotFoundError "missing.csv") eq_refl eq_refl).
Defined.

(** X3: a split that got past the guard of line 72 attempts exactly one read, of
    the configured path, and changes no file, whether it returns or raises. *)
Theorem split_reads_once (self : DataFetcher) (inc : bool) (w : World) (tn : string) :
  target_name self = Some tn ->
  io (snd (get_features_and_target self inc w)) = io w ++ [ReadFile (csv_path self)] /\
  fs (snd (get_features_and_target self inc w)) = fs w.
Proof.
  intros Ht. rewrite (split_run self inc w tn Ht).
  destruct (fst (_read_csv_file self w)) as [df|e];
    [destruct (missing_columns self df);
     [destruct (pd.drop df (drop_cols self df tn));
      [destruct (target_of self inc df tn)|]|]|];
    simpl; rewrite load_world; simpl; split; reflexivity.
Qed.

Lemma split_reads_once_witness :
  io (snd (get_features_and_target fetcher_wrong_names true w0)) = [ReadFile "data.csv"] /\
  fs (snd (get_features_and_target fetcher_wrong_names true w0)) = disk.
Proof.
  exact (split_reads_once fetcher_wrong_names true w0 "fraud" eq_refl).
Defined.

(** X4: a split that returns has logged four records, all at info level: the
    announcement of the read, the row and column counts of the table, the
    shape of the features and the shape of the target, in this order. *)
Theorem split_success_log (self : DataFetcher) (inc : bool) (w w' : World)
    (X : pd.DataFrame) (y : pd.Selection) (df : pd.DataFrame) :
  get_features_and_target self inc w = (Return (X, y), w') ->
  fst (_read_csv_file self w) = Return df ->
  w' = mkWorld (fs w)
               (log w ++ [reading_record self; loaded_record df;
                          features_record X; target_record y])
               (io w ++ [ReadFile (csv_path self)]).
Proof.
  intros Hs Hl. destruct (target_name self) as [tn|] eqn:Ht.
  - rewrite (split_run self inc w tn Ht), Hl in Hs.
    destruct (missing_columns self df); [|discriminate].
    destruct (pd.drop df (drop_cols self df tn)) as [X'|]; [|discriminate].
    destruct (target_of self inc df tn) as [y'|]; [|discriminate].
    injection Hs as <- <- <-. rewrite load_world, Hl. unfold add_log. simpl.
    now rewrite <- app_assoc.
  - unfold get_features_and_target in Hs. rewrite Ht in Hs. discriminate.
Qed.

Lemma split_success_log_witness :
  snd (get_features_and_target fetcher false w0) =
  mkWorld disk
          [reading_record fetcher; loaded_record transactions_table;
           features_record amounts_only; target_record labels_only]
          [ReadFile "data.csv"].
Proof.
  exact (split_success_log fetcher false w0
           (snd (get_features_and_target fetcher false w0))
           amounts_only labels_only transactions_table eq_refl eq_refl).
Defined.

Lemma ends_with_error_last (records before : list LogRecord) (r : LogRecord) :
  level r = ERROR -> ends_with_error (records ++ before ++ [r]) = true.
Proof.
  intros Hr. unfold ends_with_error. rewrite !rev_app_distr. simpl. now rewrite Hr.
Qed.

Lemma load_record_error (self : DataFetcher) (e : exn) :
  level (load_record self (Raise e)) = ERROR.
Proof. destruct e; reflexivity. Qed.

(** X5: every exception of a split whose target name is not the empty string has
    been logged: when such a split raises, the last record of the log is at
    error level. (With the empty string for target name the split fails in
    [df.drop], which the method does not log.) *)
Theorem split_failures_logged (self : DataFetcher) (inc : bool) (w : World) (e : exn) :
  target_name self <> Some "" ->
  fst (get_features_and_target self inc w) = Raise e ->
  ends_with_error (log (snd (get_features_and_target self inc w))) = true.
Proof.
  intros Hne. destruct (target_name self) as [tn|] eqn:Ht.
  - assert (tn <> "") as Htn by congruence.
    rewrite (split_run self inc w tn Ht).
    destruct (fst (_read_csv_file self w)) as [df|e'] eqn:Hl.
    + destruct (missing_columns self df) as [|m ms] eqn:Hm.
      * destruct (validated_present self df tn Ht Hm) as [Hp Hid].
        specialize (Hp Htn).
        unfold pd.drop. rewrite (drop_cols_present self df tn Hp).
        destruct (target_of_returns self inc df tn Hp Hid) as [y ->].
        discriminate.
      * intros _. simpl. now apply (ends_with_error_last _ []).
    + intros _. simpl. rewrite load_world, Hl. simpl.
      apply (ends_with_error_last (log w) [reading_record self]), load_record_error.
  - intros _. unfold get_features_and_target. rewrite Ht. simpl.
    now apply (ends_with_error_last _ []).
Qed.

Lemma split_failures_logged_witness :
  ends_with_error (log (snd (get_features_and_target fetcher_locked_file true w0))) = true.
Proof.
  refine (split_failures_logged fetcher_locked_file true w0
            (PermissionError "locked.csv") _ eq_refl).
  discriminate.
Defined.

(** The failure of a split with the empty string for target name is the one
    the method does not log: the last record is the info record of the load. *)
Example blank_target_failure_not_logged :
  ends_with_error (log (snd (get_features_and_target fetcher_blank_target true w0))) = false.
Proof. reflexivity. Qed.

(** ** The identifier and the flag *)

(** X6: an empty identifier name counts as none: the split of a fetcher whose
    identifier name is [""] is the split of the same fetcher without an
    identifier, outcome and world alike. *)
Theorem blank_id_is_no_id (self : DataFetcher) (inc : bool) (w : World) :
  id_column self = Some "" ->
  get_features_and_target self inc w = get_features_and_target (with_id self None) inc w.
Proof.
  destruct self as [p h t i]. simpl. intros ->. reflexivity.
Qed.

Lemma blank_id_is_no_id_witness :
  get_features_and_target fetcher_blank_id true w0 =
  get_features_and_target fetcher_no_id true w0.
Proof. exact (blank_id_is_no_id fetcher_blank_id true w0 eq_refl). Defined.

(** X7: without an identifier name, or with the empty one, include-id-in-target
    changes nothing: the two splits have the same outcome and leave the same
    world. *)
Theorem flag_ignored_without_id (self : DataFetcher) (w : World) :
  truthy (id_column self) = false ->
  get_features_and_target self true w = get_features_and_target self false w.
Proof.
  intros Hi. unfold get_features_and_target. rewrite Hi. reflexivity.
Qed.

Lemma flag_ignored_without_id_witness :
  get_features_and_target fetcher_no_id true w0 =
  get_features_and_target fetcher_no_id false w0.
Proof. exact (flag_ignored_without_id fetcher_no_id w0 eq_refl). Defined.

(** X8: include-id-in-target changes the target only: the two splits of a fetcher
    on a world both return, with the same features, or both raise, the same
    exception. *)
Theorem features_independent_of_flag (self : DataFetcher) (w : World) :
  match fst (get_features_and_target self true w),
        fst (get_features_and_target self false w) with
  | Return (X1, _), Return (X2, _) => X1 = X2
  | Raise e1, Raise e2 => e1 = e2
  | _, _ => False
  end.
Proof.
  destruct (target_name self) as [tn|] eqn:Ht.
  - rewrite !(split_outcome self _ w tn Ht).
    destruct (fst (_read_csv_file self w)) as [df|e] eqn:Hl; [|reflexivity].
    destruct (missing_columns self df) as [|m ms] eqn:Hm; [|reflexivity].
    destruct (pd.drop df (drop_cols self df tn)) as [X|e] eqn:Hd; [|reflexivity].
    destruct (validated_present self df tn Ht Hm) as [_ Hid].
    apply drop_inv in Hd. destruct Hd as [_ Hin].
    assert (In (LStr tn) (pd.columns df)) as Hp by (apply Hin; unfold drop_cols; now left).
    destruct (target_of_returns self true df tn Hp Hid) as [y1 ->].
    destruct (target_of_returns self false df tn Hp Hid) as [y2 ->].
    reflexivity.
  - unfold get_features_and_target. rewrite Ht. reflexivity.
Qed.

(** ** When the split returns, exactly *)

(** X9: once the table is loaded, the split returns features and a target
    exactly when the target name labels a column and the identifier name,
    if one that is not empty was given, labels a column too. *)
Theorem split_returns_iff (self : DataFetcher) (inc : bool) (w : World)
    (tn : string) (df : pd.DataFrame) :
  target_name self = Some tn ->
  fst (_read_csv_file self w) = Return df ->
  (exists X y, fst (get_features_and_target self inc w) = Return (X, y)) <->
  In (LStr tn) (pd.columns df) /\
  (forall i, id_column self = Some i -> i <> "" -> In (LStr i) (pd.columns df)).
Proof.
  intros Ht Hl. split.
  - intros (X & y & Hs). exact (split_columns_present self inc w X y df tn Hs Hl Ht).
  - intros [Htn Hid]. exact (split_returns self inc w tn df Ht Hl Htn Hid).
Qed.

Lemma split_returns_iff_witness :
  (exists X y, fst (get_features_and_target fetcher true w0) = Return (X, y)) <->
  In (LStr "label") (pd.columns transactions_table) /\
  (forall i, id_column fetcher = Some i -> i <> "" ->
             In (LStr i) (pd.columns transactions_table)).
Proof.
  exact (split_returns_iff fetcher true w0 "label" transactions_table eq_refl eq_refl).
Defined.

(** X10: the outcome of a split depends on the fetcher, the flag and the file at
    the configured path only: in two worlds that have the same thing at that
    path, whatever their logs, their earlier reads and their other files, the
    split returns the same features and target or raises the same exception. *)
Theorem split_depends_on_file_only (self : DataFetcher) (inc : bool) (w w2 : World) :
  fs w2 (csv_path self) = fs w (csv_path self) ->
  fst (get_features_and_target self inc w2) = fst (get_features_and_target self inc w).
Proof.
  intros Hfs. destruct (target_name self) as [tn|] eqn:Ht.
  - rewrite !(split_outcome self inc _ tn Ht). now rewrite !load_outcome, Hfs.
  - unfold get_features_and_target. rewrite Ht. reflexivity.
Qed.

Lemma split_depends_on_file_only_witness :
  fst (get_features_and_target fetcher true (snd (get_features_and_target fetcher false w0))) =
  fst (get_features_and_target fetcher true w0).
Proof.
  exact (split_depends_on_file_only fetcher true w0
           (snd (get_features_and_target fetcher false w0)) eq_refl).
Defined.

(** ** The frames the split builds *)

Lemma wf_columns_of (df : pd.DataFrame) (cs : list (Label * list Cell)) :
  pd.wf df ->
  (forall c, In c cs -> In c (pd.data df)) ->
  pd.wf (pd.mkFrame (pd.nrows df) cs).
Proof.
  unfold pd.wf. simpl. rewrite !Forall_forall. intros Hwf Hsub c Hc. auto.
Qed.

(** X11: the frames a split returns keep the table's shape invariant: every column
    of the features, and every column of a target that is a frame, has one
    scalar per row of the frame. *)
Theorem split_keeps_wf (self : DataFetcher) (inc : bool) (w : World)
    (X : pd.DataFrame) (y : pd.Selection) :
  fst (get_features_and_target self inc w) = Return (X, y) ->
  pd.wf X /\ (forall d, y = pd.TFrame d -> pd.wf d).
Proof.
  intros Hs. apply split_inv in Hs. destruct Hs as (tn & df & Ht & Hl & _ & Hd & Hy).
  pose proof (loaded_wf self w df Hl) as Hwf.
  apply drop_inv in Hd. destruct Hd as [-> _]. split.
  - apply wf_columns_of; [exact Hwf|]. intros c Hc. now apply filter_In in Hc.
  - intros d ->. unfold target_of in Hy.
    destruct (truthy (id_column self) && inc).
    + destruct (pd.getitem_list df _) as [t|e] eqn:Hg; [|discriminate].
      injection Hy as <-. apply getitem_list_inv in Hg. destruct Hg as [-> _].
      apply wf_columns_of; [exact Hwf|]. intros c Hc.
      apply in_flat_map in Hc. destruct Hc as [l [_ Hc]]. now apply labelled_In in Hc.
    + unfold pd.getitem in Hy.
      destruct (pd.labelled (LStr tn) (pd.data df)) as [|c [|c' cs]] eqn:E;
        [discriminate | discriminate |].
      injection Hy as <-.
      apply wf_columns_of; [exact Hwf|]. intros c0 Hc. rewrite <- E in Hc.
      now apply labelled_In in Hc.
Qed.

Lemma split_keeps_wf_witness :
  pd.wf amounts_only /\ (forall d, ids_and_labels = pd.TFrame d -> pd.wf d).
Proof. exact (split_keeps_wf fetcher true w0 amounts_only ids_and_labels eq_refl). Defined.

(** ** How many columns the features have *)

Lemma filter_all (A : Type) (f : A -> bool) (l : list A) :
  (forall x, In x l -> f x = true) -> filter f l = l.
Proof.
  induction l as [|a l IH]; simpl; intros H; [reflexivity|].
  rewrite (H a (or_introl eq_refl)). f_equal. apply IH. intros x Hx. apply H. now right.
Qed.

Lemma filter_out_one (l : list Label) (a : Label) :
  NoDup l -> In a l ->
  length (filter (fun x => negb (Label_eqb x a)) l) + 1 = length l.
Proof.
  induction l as [|b l IH]; simpl; intros Hnd Hin; [contradiction|].
  inversion Hnd as [|? ? Hnb Hnd']; subst.
  destruct (Label_eqb b a) eqn:E; simpl.
  - apply Label_eqb_eq in E. subst b. rewrite filter_all; [lia|].
    intros x Hx. apply negb_true_iff, Label_eqb_neq. intros ->. contradiction.
  - destruct Hin as [->|Hin]; [now rewrite Label_eqb_refl in E|].
    specialize (IH Hnd' Hin). lia.
Qed.

Lemma filter_out_two (l : list Label) (a b : Label) :
  NoDup l -> In a l -> In b l -> a <> b ->
  length (filter (fun x => negb (Label_eqb x a) && negb (Label_eqb x b)) l) + 2 = length l.
Proof.
  induction l as [|c l IH]; simpl; intros Hnd Ha Hb Hab; [contradiction|].
  inversion Hnd as [|? ? Hnc Hnd']; subst.
  destruct (Label_eqb c a) eqn:Ea; simpl.
  - apply Label_eqb_eq in Ea. subst c.
    destruct Hb as [->|Hb]; [contradiction|].
    rewrite (filter_ext_in _ (fun x => negb (Label_eqb x b))).
    + pose proof (filter_out_one l b Hnd' Hb). lia.
    + intros x Hx. assert (Label_eqb x a = false) as ->; [|reflexivity].
      apply Label_eqb_neq. intros ->. contradiction.
  - destruct Ha as [->|Ha]; [now rewrite Label_eqb_refl in Ea|].
    destruct (Label_eqb c b) eqn:Eb; simpl.
    + apply Label_eqb_eq in Eb. subst c.
      rewrite (filter_ext_in _ (fun x => negb (Label_eqb x a))).
      * pose proof (filter_out_one l a Hnd' Ha). lia.
      * intros x Hx. assert (Label_eqb x b = false) as ->; [|apply andb_true_r].
        apply Label_eqb_neq. intros ->. contradiction.
    + destruct Hb as [->|Hb]; [now rewrite Label_eqb_refl in Eb|].
      specialize (IH Hnd' Ha Hb Hab). lia.
Qed.

Lemma features_columns_filter (self : DataFetcher) (inc : bool) (w : World)
    (X : pd.DataFrame) (y : pd.Selection) (df : pd.DataFrame) (tn : string) :
  fst (get_features_and_target self inc w) = Return (X, y) ->
  fst (_read_csv_file self w) = Return df ->
  target_name self = Some tn ->
  pd.columns X =
  filter (fun l => negb (pd.contains (drop_cols self df tn) l)) (pd.columns df).
Proof.
  intros Hs Hl Ht.
  destruct (split_inv_at self inc w X y df tn Hs Hl Ht) as (_ & Hd & _).
  apply drop_inv in Hd. destruct Hd as [-> _].
  unfold pd.columns. cbn [pd.data].
  apply (map_fst_filter _ _ (fun l => negb (pd.contains (drop_cols self df tn) l))).
Qed.

(** X12: for a table with distinct labels, the features of a successful split
    have the table's columns less one, or less two when an identifier name
    was given that is neither empty nor the target's. *)
Theorem features_width (self : DataFetcher) (inc : bool) (w : World)
    (X : pd.DataFrame) (y : pd.Selection) (df : pd.DataFrame) (tn : string) :
  fst (get_features_and_target self inc w) = Return (X, y) ->
  fst (_read_csv_file self w) = Return df ->
  target_name self = Some tn ->
  NoDup (pd.columns df) ->
  length (pd.columns X) + dropped_count self tn = length (pd.columns df).
Proof.
  intros Hs Hl Ht Hnd.
  rewrite (features_columns_filter self inc w X y df tn Hs Hl Ht).
  destruct (split_columns_present self inc w X y df tn Hs Hl Ht) as [Htn Hid].
  unfold dropped_count, drop_cols, truthy.
  destruct (id_column self) as [i|] eqn:Hi.
  - destruct (String.eqb i "") eqn:Ei; cbn [negb andb app].
    + rewrite (filter_ext _ (fun x => negb (Label_eqb x (LStr tn)))).
      * now apply filter_out_one.
      * intros x. unfold pd.contains. simpl. now rewrite orb_false_r.
    + apply String.eqb_neq in Ei. specialize (Hid i eq_refl Ei).
      pose proof Hid as Hc. apply contains_In in Hc. rewrite Hc. cbn [app].
      destruct (String.eqb i tn) eqn:Eit.
      * apply String.eqb_eq in Eit. subst i.
        rewrite (filter_ext _ (fun x => negb (Label_eqb x (LStr tn)))).
        -- now apply filter_out_one.
        -- intros x. unfold pd.contains. simpl. now destruct (Label_eqb x (LStr tn)).
      * apply String.eqb_neq in Eit.
        rewrite (filter_ext _ (fun x => negb (Label_eqb x (LStr tn)) &&
                                        negb (Label_eqb x (LStr i)))).
        -- apply filter_out_two; try assumption. congruence.
        -- intros x. unfold pd.contains. simpl. rewrite orb_false_r. apply negb_orb.
  - rewrite (filter_ext _ (fun x => negb (Label_eqb x (LStr tn)))).
    + now apply filter_out_one.
    + intros x. unfold pd.contains. simpl. now rewrite orb_false_r.
Qed.

Lemma features_width_witness :
  length (pd.columns amounts_only) + 2 = length (pd.columns transactions_table).
Proof.
  refine (features_width fetcher true w0 amounts_only ids_and_labels transactions_table
            "label" eq_refl eq_refl eq_refl _).
  repeat constructor; simpl; intuition discriminate.
Defined.
